(** * FleetGuard: telemetry ingestion, fleet aggregation, acknowledgments
      and the siren command log.

    A shallow embedding of
      - [pages/api/data.js]   (telemetry ingestion handler),
      - [pages/api/siren.js]  (remote command handler),
      - [app/components/home/page.jsx] ([processFleetData] and the
        acknowledgment reducer of [Dashboard]),
      - [pages/api/updatedgps.js] (GPS update handler),
      - [app/components/home/page.jsx] ([handleVehicleControl] and the
        vehicle cards),
      - [app/components/map/page.jsx] ([calculateAggregates]),
    followed by the properties established about them.

    Modelling conventions.
      - JSON values are the inductive [JS.val]; JSON arrays are not
        represented, and an object is the association list of its own
        properties (first binding wins).
      - Finite JS numbers are rationals; the rounding of IEEE doubles is
        not represented.  The aggregation works on records whose
        [timestamp] and [speed] are integers.  Comparisons and the
        sort are those of the source for all such records; the values
        of sums, differences and quotients are those of the source as
        long as they stay within the range where doubles are exact,
        which the properties about such values assume.
      - Host built-ins whose result depends on the engine or the locale
        ([StringToNumber], [toLocaleTimeString]) are fields of the class
        [JS.Runtime]; every property holds for every runtime.
      - [Date.now()] is an explicit argument, in milliseconds.
      - The plain objects used as dictionaries ([lastAlertTimes], the
        acknowledgment state) are the finite map of their own
        properties together with what they inherit from
        [Object.prototype]: a read of an inherited name without own
        property yields a truthy member that is not a number, and an
        assignment to ["__proto__"] creates no own property. *)

From Stdlib Require Import ZArith QArith List String Ascii Bool Lia.
From Stdlib Require Import Permutation Sorted DecimalString.
From stdpp Require Import gmap strings list sorting.

Close Scope Q_scope.
Set Warnings "-register-all".
Local Open Scope Z_scope.
Local Open Scope string_scope.

(* ===================================================================== *)
(** * Part I: the embedding                                               *)
(* ===================================================================== *)

(** ** JavaScript values *)

Module JS.

Inductive num : Type :=
| NaN
| Inf (negative : bool)
| Fin (q : Q).

Inductive val : Type :=
| Undefined
| Null
| Bool (b : bool)
| Num (n : num)
| Str (s : string)
| Obj (props : list (string * val)).

(** Engine- and locale-dependent built-ins. *)
Class Runtime : Type := {
  StringToNumber : string -> num;
  (* [new Date(t * 1000).toLocaleTimeString()] *)
  toLocaleTimeString : Z -> string;
  (* [... .toLocaleTimeString([], {hour, minute, second: "2-digit"})] *)
  toLocaleTimeString2 : Z -> string
}.

(** [ToBoolean]. *)
Definition truthy (v : val) : bool :=
  match v with
  | Undefined | Null => false
  | Bool b => b
  | Num NaN => false
  | Num (Inf _) => true
  | Num (Fin q) => negb (Z.eqb (Qnum q) 0)
  | Str s => negb (String.eqb s "")
  | Obj _ => true
  end.

Definition is_undefined (v : val) : bool :=
  match v with Undefined => true | _ => false end.

Definition nullish (v : val) : bool :=
  match v with Undefined | Null => true | _ => false end.

Fixpoint lookup_prop (k : string) (props : list (string * val)) : val :=
  match props with
  | [] => Undefined
  | (k', v) :: rest => if String.eqb k k' then v else lookup_prop k rest
  end.

(** [v.k] for a value [v] that is neither [undefined] nor [null] (those
    throw; every caller below guards the read).  None of the property
    names read by the program exists on a primitive's prototype. *)
Definition get (v : val) (k : string) : val :=
  match v with
  | Obj props => lookup_prop k props
  | _ => Undefined
  end.

Fixpoint assign_prop (k : string) (x : val) (props : list (string * val))
  : list (string * val) :=
  match props with
  | [] => [(k, x)]
  | (k', v) :: rest =>
      if String.eqb k k' then (k, x) :: rest
      else (k', v) :: assign_prop k x rest
  end.

(** [v.k = x] on an object. *)
Definition set (v : val) (k : string) (x : val) : val :=
  match v with
  | Obj props => Obj (assign_prop k x props)
  | _ => v
  end.

(** [Number(v)]; a plain object converts through ["[object Object]"]. *)
Definition Number `{Runtime} (v : val) : num :=
  match v with
  | Undefined => NaN
  | Null => Fin (Qmake 0 1)
  | Bool b => Fin (Qmake (if b then 1 else 0) 1)
  | Num n => n
  | Str s => StringToNumber s
  | Obj _ => NaN
  end.

Definition isFinite (n : num) : bool :=
  match n with Fin _ => true | _ => false end.

(** [a === b] where [b] is a primitive literal. *)
Definition strict_eq (a b : val) : bool :=
  match a, b with
  | Undefined, Undefined => true
  | Null, Null => true
  | Bool x, Bool y => Bool.eqb x y
  | Num (Fin x), Num (Fin y) => Qeq_bool x y
  | Num (Inf x), Num (Inf y) => Bool.eqb x y
  | Str x, Str y => String.eqb x y
  | _, _ => false
  end.

(** The property names every plain object inherits from
    [Object.prototype]; each is bound to a function, [__proto__] to the
    prototype itself. *)
Definition object_prototype_names : list string :=
  ["constructor"; "__defineGetter__"; "__defineSetter__"; "hasOwnProperty";
   "__lookupGetter__"; "__lookupSetter__"; "isPrototypeOf";
   "propertyIsEnumerable"; "toString"; "valueOf"; "__proto__";
   "toLocaleString"].

Definition inherited (k : string) : bool :=
  existsb (String.eqb k) object_prototype_names.

(** The decimal digits of a non-negative integer. *)
Definition decimal (n : Z) : string :=
  NilZero.string_of_uint (N.to_uint (Z.to_N n)).

(** [(num / den).toFixed(0)] for integers [num] and [den > 0]: the
    nearest integer, a tie going away from zero, printed in decimal. *)
Definition div_toFixed0 (num den : Z) : string :=
  if Z.ltb num 0
  then "-" ++ decimal ((2 * (- num) + den) / (2 * den))
  else decimal ((2 * num + den) / (2 * den)).

End JS.

(** ** The document store (MongoDB collection) *)

Module Store.

Record collection : Type := {
  online : bool;            (* [false]: every operation throws *)
  docs : list JS.val
}.

(** [db.collection(..).insertOne(doc)]: the new collection and the
    identifier of the inserted document, or [None] when it throws. *)
Definition insertOne (c : collection) (doc : JS.val) : option (collection * nat) :=
  if online c
  then Some ({| online := true; docs := docs c ++ [doc] |}, length (docs c))
  else None.

Record response : Type := {
  status : Z;
  message : string;
  insertedId : option nat
}.

Definition reply (code : Z) (msg : string) : response :=
  {| status := code; message := msg; insertedId := None |}.

End Store.

(** ** pages/api/data.js *)

Module Data.
Import JS Store.

Record outcome : Type := {
  store : collection;
  res : response;
  warned : bool             (* [console.warn] was called *)
}.

Section Handler.
Context `{Runtime}.

(** The [POST] branch of [handler]; [now] is [Date.now()]. *)
Definition handler_post (now : Z) (db : collection) (data : val) : outcome :=
  if negb (truthy data)
     || negb (truthy (get data "vehicleId"))
     || is_undefined (get data "speed")
     || negb (truthy (get data "gps"))
  then {| store := db;
          res := reply 400 "Missing required vehicle data fields.";
          warned := false |}
  else
    let lat := Number (get (get data "gps") "lat") in
    let lng := Number (get (get data "gps") "lng") in
    if negb (isFinite lat) || negb (isFinite lng)
    then {| store := db; res := reply 400 "Invalid GPS values.";
            warned := false |}
    else
      let data1 := set data "gps" (Obj [("lat", Num lat); ("lng", Num lng)]) in
      let w := negb (truthy (get data1 "driver"))
               || negb (truthy (get (get data1 "driver") "id"))
               || negb (truthy (get (get data1 "driver") "name")) in
      let data2 :=
        if negb (truthy (get data1 "timestamp"))
        then set data1 "timestamp" (Num (Fin (Qmake now 1000)))
        else data1 in
      match insertOne db data2 with
      | Some (db', id) =>
          {| store := db';
             res := {| status := 201;
                       message := "Data saved successfully";
                       insertedId := Some id |};
             warned := w |}
      | None =>
          {| store := db; res := reply 500 "Internal Server Error";
             warned := w |}
      end.

(** The document [handler_post] hands to [insertOne] once the guards are
    passed: [data] after the two assignments. *)
Definition normalised (now : Z) (data : val) : val :=
  let data1 :=
    set data "gps"
      (Obj [("lat", Num (Number (get (get data "gps") "lat")));
            ("lng", Num (Number (get (get data "gps") "lng")))]) in
  if negb (truthy (get data1 "timestamp"))
  then set data1 "timestamp" (Num (Fin (Qmake now 1000)))
  else data1.

End Handler.
End Data.

(** ** pages/api/siren.js *)

Module Siren.
Import JS Store.

Definition allowedCommands : list string :=
  ["KILL_ENGINE"; "TRIGGER_ALARM"; "RESET"].

(** [allowedCommands.includes(command)]. *)
Definition includes (l : list string) (v : val) : bool :=
  match v with
  | Str s => existsb (String.eqb s) l
  | _ => false
  end.

Record outcome : Type := {
  store : collection;
  res : response
}.

(** The [POST] branch of [handler]; [now] is [Date.now()].  Destructuring
    a [null] or [undefined] body throws inside the [try]. *)
Definition handler_post (now : Z) (db : collection) (body : val) : outcome :=
  if nullish body
  then {| store := db; res := reply 500 "Internal Server Error" |}
  else
    let vehicleId := get body "vehicleId" in
    let command := get body "command" in
    let driver := get body "driver" in
    if negb (truthy vehicleId) || negb (truthy command)
    then {| store := db;
            res := reply 400 "vehicleId and command are required." |}
    else if negb (includes allowedCommands command)
    then {| store := db;
            res := reply 400
              "Invalid command. Allowed: KILL_ENGINE, TRIGGER_ALARM, RESET" |}
    else
      let timestamp := Num (Fin (Qmake now 1000)) in
      let payload :=
        Obj [("vehicleId", vehicleId);
             ("command", command);
             ("driver", if truthy driver then driver else Null);
             ("timestamp", timestamp);
             ("status", Str "PENDING")] in
      match insertOne db payload with
      | Some (db', id) =>
          {| store := db';
             res := {| status := 201;
                       message := "Siren command stored successfully";
                       insertedId := Some id |} |}
      | None => {| store := db; res := reply 500 "Internal Server Error" |}
      end.

End Siren.

(** ** app/components/home/page.jsx *)

Module Dashboard.
Import JS.

(** A telemetry record as the dashboard receives it. *)
Record record : Type := {
  vehicleId : string;
  driver : val;
  speed : Z;
  gps : val;
  alert : val;
  timestamp : Z
}.

(** A call either returns or throws a [TypeError]. *)
Inductive completion (A : Type) : Type :=
| Returned (a : A)
| TypeError.
Arguments Returned {A} a.
Arguments TypeError {A}.

(** *** [[...rawData].sort((a, b) => a.timestamp - b.timestamp)]

    [Array.prototype.sort] is stable: records comparing equal keep their
    input order. *)
Fixpoint insert_sorted (r : record) (l : list record) : list record :=
  match l with
  | [] => [r]
  | h :: t =>
      if Z.leb (timestamp r - timestamp h) 0 then r :: h :: t
      else h :: insert_sorted r t
  end.

Fixpoint sort_by_timestamp (l : list record) : list record :=
  match l with
  | [] => []
  | r :: rest => insert_sorted r (sort_by_timestamp rest)
  end.

(** [sortedData[sortedData.length - 1].timestamp] of a non-empty array. *)
Definition last_timestamp (sortedData : list record) : Z :=
  match rev sortedData with
  | [] => 0
  | r :: _ => timestamp r
  end.

(** The alert test of the first pass and of the latch. *)
Definition isAlertRecord (a : val) : bool :=
  strict_eq a (Bool true) || strict_eq a (Str "Sleeping")
  || strict_eq a (Str "true").

(** The alert test of [totalHistoricalAlerts] and of the chart. *)
Definition isAlertSample (a : val) : bool :=
  strict_eq a (Bool true) || strict_eq a (Str "Sleeping").

(** [lastAlertTimes[id] = t] on the own properties of the plain object:
    the setter of [__proto__] ignores a number. *)
Definition assign_time (id : string) (t : Z) (lastAlertTimes : gmap string Z)
  : gmap string Z :=
  if String.eqb id "__proto__" then lastAlertTimes
  else <[id := t]> lastAlertTimes.

(** First pass: the own properties of [lastAlertTimes]. *)
Definition first_pass (sortedData : list record) : gmap string Z :=
  fold_left
    (fun (lastAlertTimes : gmap string Z) (r : record) =>
       if isAlertRecord (alert r)
       then assign_time (vehicleId r) (timestamp r) lastAlertTimes
       else lastAlertTimes)
    sortedData ∅.

(** [lastAlertTimes[id] || 0]: the number read, or [None] when the read
    yields a member inherited from [Object.prototype], which is truthy
    and not a number. *)
Definition lastAlert_or_0 (lastAlertTimes : gmap string Z) (id : string)
  : option Z :=
  match lastAlertTimes !! id with
  | Some t => Some (if Z.eqb t 0 then 0 else t)
  | None => if inherited id then None else Some 0
  end.

(** *** The driver's phone number *)

Definition is_digit (c : ascii) : bool :=
  (48 <=? N.to_nat (N_of_ascii c))%nat && (N.to_nat (N_of_ascii c) <=? 57)%nat.

(** [s.replace(/\D/g, "")]. *)
Definition strip_non_digits (s : string) : string :=
  string_of_list_ascii (List.filter is_digit (list_ascii_of_string s)).

(** [s.padEnd(n, "0")]. *)
Definition padEnd0 (n : nat) (s : string) : string :=
  s ++ string_of_list_ascii (repeat "0"%char (n - String.length s)).

(** [s.slice(0, n)]. *)
Definition slice0 (n : nat) (s : string) : string :=
  string_of_list_ascii (firstn n (list_ascii_of_string s)).

(** [`+880 17${record.driver.id.replace(/\D/g, "").padEnd(8, "0").slice(0, 8)}`]:
    reading [id] of an absent driver throws, and so does calling [replace]
    on anything but a string. *)
Definition driverPhone_of (r : record) : completion string :=
  if nullish (driver r) then TypeError
  else match get (driver r) "id" with
       | Str id =>
           Returned ("+880 17" ++ slice0 8 (padEnd0 8 (strip_non_digits id)))
       | _ => TypeError
       end.

(** *** Vehicle states *)

Record vehicle_state : Type := {
  source : record;                (* [...record] *)
  formattedTime : string;
  isDrowsy : bool;
  secondsSinceAlert : option Z;   (* [None] is [NaN] *)
  driverPhone : string
}.

(** [vehicleMap.set(id, v)]: a [Map] keeps the position of the first
    insertion of a key. *)
Fixpoint map_set (id : string) (v : vehicle_state)
  (m : list (string * vehicle_state)) : list (string * vehicle_state) :=
  match m with
  | [] => [(id, v)]
  | (id', v') :: rest =>
      if String.eqb id id' then (id, v) :: rest
      else (id', v') :: map_set id v rest
  end.

Record fleet_stats : Type := {
  totalVehicles : nat;
  drowsinessCount : nat;
  avgSpeed : val;
  totalHistoricalAlerts : nat
}.

Record history_point : Type := {
  time : string;
  h_speed : Z;
  isAlert : Z
}.

Record fleet : Type := {
  stats : option fleet_stats;     (* [None] is the empty object [{}] *)
  uniqueVehicles : list vehicle_state;
  history : list history_point
}.

(** [a.slice(-n)]. *)
Definition slice_last {A : Type} (n : nat) (a : list A) : list A :=
  skipn (length a - n) a.

Section ProcessFleetData.
Context `{Runtime}.

(** The body of the second [forEach]. *)
Definition latch (latestSystemTimestamp : Z) (lastAlertTimes : gmap string Z)
  (r : record) : completion vehicle_state :=
  let lastAlert := lastAlert_or_0 lastAlertTimes (vehicleId r) in
  (* a number minus an object or a function is [NaN] *)
  let secondsSinceAlert :=
    match lastAlert with
    | Some t => Some (latestSystemTimestamp - t)
    | None => None
    end in
  (* [NaN < 300] is false *)
  let isDrowsy :=
    strict_eq (alert r) (Bool true) || strict_eq (alert r) (Str "Sleeping")
    || strict_eq (alert r) (Str "true")
    || match secondsSinceAlert with
       | Some s => Z.ltb s 300
       | None => false
       end in
  match driverPhone_of r with
  | TypeError => TypeError
  | Returned phone =>
      Returned {| source := r;
                  formattedTime := toLocaleTimeString (timestamp r);
                  isDrowsy := isDrowsy;
                  secondsSinceAlert := secondsSinceAlert;
                  driverPhone := phone |}
  end.

(** Second pass: [vehicleMap], or the exception that interrupts it. *)
Fixpoint second_pass (latestSystemTimestamp : Z) (lastAlertTimes : gmap string Z)
  (sortedData : list record) (vehicleMap : list (string * vehicle_state))
  : completion (list (string * vehicle_state)) :=
  match sortedData with
  | [] => Returned vehicleMap
  | r :: rest =>
      match latch latestSystemTimestamp lastAlertTimes r with
      | TypeError => TypeError
      | Returned v =>
          second_pass latestSystemTimestamp lastAlertTimes rest
            (map_set (vehicleId r) v vehicleMap)
      end
  end.

Definition history_of (d : record) : history_point :=
  {| time := toLocaleTimeString2 (timestamp d);
     h_speed := speed d;
     isAlert := if isAlertSample (alert d) then 1 else 0 |}.

Definition processFleetData (rawData : list record) : completion fleet :=
  match rawData with
  | [] => Returned {| stats := None; uniqueVehicles := []; history := [] |}
  | _ =>
      let sortedData := sort_by_timestamp rawData in
      let latestSystemTimestamp := last_timestamp sortedData in
      let lastAlertTimes := first_pass sortedData in
      match second_pass latestSystemTimestamp lastAlertTimes sortedData [] with
      | TypeError => TypeError
      | Returned vehicleMap =>
          let uniqueVehicles := List.map snd vehicleMap in
          let totalVehicles := length uniqueVehicles in
          let drowsinessCount := length (List.filter isDrowsy uniqueVehicles) in
          (* [v.speed || 0] is [v.speed] for a number; the sum and the
             quotient below are those of the source as long as the doubles
             are exact, that is for non-negative speeds of total < 2^52 *)
          let totalSpeed :=
            fold_left (fun sum v => sum + speed (source v)) uniqueVehicles 0 in
          let avgSpeed :=
            if (0 <? totalVehicles)%nat
            then Str (div_toFixed0 totalSpeed (Z.of_nat totalVehicles))
            else Num (Fin (Qmake 0 1)) in
          let totalHistoricalAlerts :=
            length (List.filter (fun r => isAlertSample (alert r)) sortedData) in
          Returned
            {| stats := Some {| totalVehicles := totalVehicles;
                                drowsinessCount := drowsinessCount;
                                avgSpeed := avgSpeed;
                                totalHistoricalAlerts := totalHistoricalAlerts |};
               uniqueVehicles := uniqueVehicles;
               history := slice_last 30 (List.map history_of sortedData) |}
      end
  end.

End ProcessFleetData.

(** *** The acknowledgment reducer of [Dashboard] *)

Inductive action : Type :=
| ACKNOWLEDGE (vehicleId : string)
| CLEANUP
| OTHER.

(** [now] is [Date.now()], in milliseconds. *)
Definition reducer (now : Z) (state : gmap string Z) (a : action) : gmap string Z :=
  match a with
  | ACKNOWLEDGE id => <[id := now + 5 * 60 * 1000]> state
  | CLEANUP => filter (fun entry : string * Z => now < entry.2) state
  | OTHER => state
  end.

(** The truth value of [acknowledged[v.vehicleId]] in the render: the own
    entry when there is one, and otherwise what the plain object inherits
    under that name. *)
Definition acknowledged (state : gmap string Z) (id : string) : bool :=
  match state !! id with
  | Some expiry => negb (Z.eqb expiry 0)
  | None => inherited id
  end.

(** *** From stored documents to records

    The dashboard reads the telemetry back with [fetch("/api/data")]; a
    document whose [vehicleId] is a string and whose [speed] and
    [timestamp] are integers is the record below. *)

Definition int_of (v : val) : option Z :=
  match v with
  | Num (Fin q) => if Pos.eqb (Qden q) 1 then Some (Qnum q) else None
  | _ => None
  end.

Definition record_of_doc (d : val) : option record :=
  match get d "vehicleId", int_of (get d "speed"), int_of (get d "timestamp") with
  | Str id, Some s, Some t =>
      Some {| vehicleId := id;
              driver := get d "driver";
              speed := s;
              gps := get d "gps";
              alert := get d "alert";
              timestamp := t |}
  | _, _, _ => None
  end.

End Dashboard.

(** ** pages/api/updatedgps.js *)

Module Gps.
Import JS Store.

Record outcome : Type := {
  store : collection;
  res : response
}.

Section Handler.
Context `{Runtime}.

(** The [POST] branch of [handler], on the collection [gps_updates];
    [now] is [Date.now()]. *)
Definition handler_post (now : Z) (db : collection) (data : val) : outcome :=
  if negb (truthy data)
     || negb (truthy (get data "vehicleId"))
     || negb (truthy (get data "gps"))
  then {| store := db;
          res := reply 400 "Missing required fields: vehicleId, gps." |}
  else
    let lat := Number (get (get data "gps") "lat") in
    let lng := Number (get (get data "gps") "lng") in
    if negb (isFinite lat) || negb (isFinite lng)
    then {| store := db; res := reply 400 "Invalid GPS coordinate values." |}
    else
      let data1 := set data "gps" (Obj [("lat", Num lat); ("lng", Num lng)]) in
      let data2 :=
        if negb (truthy (get data1 "timestamp"))
        then set data1 "timestamp" (Num (Fin (Qmake now 1000)))
        else data1 in
      match insertOne db data2 with
      | Some (db', id) =>
          {| store := db';
             res := {| status := 201;
                       message := "GPS data saved successfully";
                       insertedId := Some id |} |}
      | None => {| store := db; res := reply 500 "Internal Server Error" |}
      end.

End Handler.
End Gps.

(** ** app/components/home/page.jsx: the operator's controls *)

Module Controls.
Import JS Store Dashboard.

Record notification : Type := {
  msg : string;
  type : string
}.

(** [response.ok]. *)
Definition ok (r : response) : bool :=
  Z.leb 200 (status r) && Z.leb (status r) 299.

Record control_outcome : Type := {
  commands : collection;          (* the collection [siren_commands] *)
  shown : notification;           (* [showNotification(msg, type)] *)
  error_logged : bool             (* [console.error("Siren API Error:", ..)] *)
}.

(** [handleVehicleControl(action, vehicleId)].  The [fetch] of
    ["/api/siren"] is the call of the siren handler, whose clock is
    [server_now]; [client_now] is the browser's [Date.now()]. *)
Definition handleVehicleControl (client_now server_now : Z) (db : collection)
  (action : string) (vehicleId : string) : control_outcome :=
  let type := if String.eqb action "KILL_ENGINE" then "danger" else "info" in
  if String.eqb action "KILL_ENGINE" then
    {| commands := db;
       shown := {| msg := "🛑 COMMAND SENT: Cutting Engine Power for "
                          ++ vehicleId ++ "...";
                   type := type |};
       error_logged := false |}
  else if String.eqb action "TRIGGER_ALARM" then
    let body :=
      Obj [("vehicleId", Str vehicleId);
           ("timestamp", Num (Fin (Qmake (client_now / 1000) 1)));
           ("command", Str "TRIGGER_ALARM")] in
    let o := Siren.handler_post server_now db body in
    {| commands := Siren.store o;
       shown := {| msg := "📢 COMMAND SENT: Triggering Remote Siren for "
                          ++ vehicleId ++ "...";
                   type := type |};
       error_logged := negb (ok (Siren.res o)) |}
  else if String.eqb action "RESET" then
    {| commands := db;
       shown := {| msg := "🔄 SYSTEM: Resetting Sensors for "
                          ++ vehicleId ++ "...";
                   type := type |};
       error_logged := false |}
  else if String.eqb action "CALL" then
    {| commands := db;
       shown := {| msg := "📞 DIALING: Connecting to Driver of "
                          ++ vehicleId ++ "...";
                   type := type |};
       error_logged := false |}
  else
    {| commands := db;
       shown := {| msg := "Command Sent"; type := type |};
       error_logged := false |}.

(** The badge of a vehicle card. *)
Inductive badge : Type :=
| DROWSY
| ACKNOWLEDGED
| ACTIVE.

Definition badge_of (ack : gmap string Z) (v : vehicle_state) : badge :=
  if isDrowsy v
  then if isDrowsy v && negb (acknowledged ack (vehicleId (source v)))
       then DROWSY
       else ACKNOWLEDGED
  else ACTIVE.

(** The first button of the action bar: ACK ([true]) or CONTACT. *)
Definition ack_button (ack : gmap string Z) (v : vehicle_state) : bool :=
  isDrowsy v && negb (acknowledged ack (vehicleId (source v))).

(** [Math.round(v.secondsSinceAlert / 60)], shown on a drowsy card
    ([NaN] when [secondsSinceAlert] is). *)
Definition minutes_ago (v : vehicle_state) : option Z :=
  match secondsSinceAlert v with
  | Some s => Some ((s + 30) / 60)
  | None => None
  end.

(** [stats.avgSpeed || 0], the value of the card "Avg Fleet Speed". *)
Definition shown_avgSpeed (f : fleet) : val :=
  match stats f with
  | Some st => if truthy (avgSpeed st) then avgSpeed st else Num (Fin (Qmake 0 1))
  | None => Num (Fin (Qmake 0 1))
  end.

(** The reducer applied to a sequence of dispatches, each with the clock
    at which it is reduced. *)
Definition dispatch_all (state : gmap string Z) (actions : list (Z * action))
  : gmap string Z :=
  fold_left (fun s a => reducer (fst a) s (snd a)) actions state.

End Controls.

(** ** app/components/map/page.jsx *)

Module MapPage.
Import JS Dashboard.

Record speed_point : Type := {
  time : string;
  p_speed : Z
}.

Record aggregates : Type := {
  totalVehicles : nat;
  avgSpeed : val;
  maxSpeed : Z;
  sleepingAlertCount : nat;
  totalActiveAlerts : nat;
  speedData : list speed_point
}.

Section CalculateAggregates.
(** [(a / b).toFixed(1)]: binary floating point decides its ties, so it
    is left to the engine. *)
Variable quotient_toFixed1 : Z -> Z -> string.
(** [new Date(t * 1000).toLocaleTimeString([], {hour, minute: "2-digit"})]. *)
Variable toLocaleTimeStringHM : Z -> string.

Definition calculateAggregates (data : list record) : aggregates :=
  let totalVehicles := length data in
  (* [d.speed || 0] is [d.speed] for a number *)
  let totalSpeed := fold_left (fun sum d => sum + speed d) data 0 in
  let avgSpeed :=
    if (0 <? totalVehicles)%nat
    then Str (quotient_toFixed1 totalSpeed (Z.of_nat totalVehicles))
    else Num (Fin (Qmake 0 1)) in
  let maxSpeed := fold_left (fun max d => Z.max max (speed d)) data 0 in
  let sleepingAlertCount :=
    length (List.filter (fun d => strict_eq (alert d) (Str "Sleeping")) data) in
  let generalAlertCount :=
    length (List.filter
              (fun d => truthy (alert d)
                        && negb (strict_eq (alert d) (Str "Sleeping"))) data) in
  {| totalVehicles := totalVehicles;
     avgSpeed := avgSpeed;
     maxSpeed := maxSpeed;
     sleepingAlertCount := sleepingAlertCount;
     totalActiveAlerts := (sleepingAlertCount + generalAlertCount)%nat;
     speedData :=
       slice_last 10
         (List.map (fun d => {| time := toLocaleTimeStringHM (timestamp d);
                                p_speed := speed d |}) data) |}.

End CalculateAggregates.
End MapPage.

(** ** A runtime to evaluate examples with

    The examples contain no numeric string and do not depend on the
    format of a time label. *)

Definition example_runtime : JS.Runtime :=
  {| JS.StringToNumber := fun _ => JS.NaN;
     JS.toLocaleTimeString := JS.decimal;
     JS.toLocaleTimeString2 := JS.decimal |}.

(** ** Example data *)

Definition empty_db : Store.collection :=
  {| Store.online := true; Store.docs := [] |}.

Definition kushtia : JS.val :=
  JS.Obj [("lat", JS.Num (JS.Fin (Qmake 238909 10000)));
          ("lng", JS.Num (JS.Fin (Qmake 89115 1000)))].

Definition payload_complete : JS.val :=
  JS.Obj [("vehicleId", JS.Str "BUS12");
          ("speed", JS.Num (JS.Fin (Qmake 45 1)));
          ("gps", kushtia)].

Definition payload_without_speed : JS.val :=
  JS.Obj [("vehicleId", JS.Str "BUS12"); ("gps", kushtia)].

Definition payload_timestamp_0 : JS.val :=
  JS.Obj [("vehicleId", JS.Str "BUS12");
          ("speed", JS.Num (JS.Fin (Qmake 45 1)));
          ("gps", kushtia);
          ("timestamp", JS.Num (JS.Fin (Qmake 0 1)))].

(** A payload without driver, posted with its capture time. *)
Definition payload_without_driver : JS.val :=
  JS.Obj [("vehicleId", JS.Str "BUS12");
          ("speed", JS.Num (JS.Fin (Qmake 45 1)));
          ("gps", kushtia);
          ("alert", JS.Bool false);
          ("timestamp", JS.Num (JS.Fin (Qmake 1700000000 1)))].

Definition rahim : JS.val :=
  JS.Obj [("id", JS.Str "D-17"); ("name", JS.Str "Rahim")].

Definition sample (id : string) (s : Z) (a : JS.val) (t : Z) : Dashboard.record :=
  {| Dashboard.vehicleId := id; Dashboard.driver := rahim; Dashboard.speed := s;
     Dashboard.gps := kushtia; Dashboard.alert := a; Dashboard.timestamp := t |}.

(** The state of a returned aggregation ([{}]-like when it threw). *)
Definition returned_or_empty (c : Dashboard.completion Dashboard.fleet)
  : Dashboard.fleet :=
  match c with
  | Dashboard.Returned f => f
  | Dashboard.TypeError =>
      {| Dashboard.stats := None; Dashboard.uniqueVehicles := [];
         Dashboard.history := [] |}
  end.

(** Scenario: an alert at 1000, a quiet sample 299 seconds later. *)
Definition batch_299 : list Dashboard.record :=
  [sample "BUS12" 45 (JS.Bool true) 1000; sample "BUS12" 50 (JS.Bool false) 1299].

Definition fleet_299 : Dashboard.fleet :=
  Eval vm_compute in
    returned_or_empty (Dashboard.processFleetData (H := example_runtime) batch_299).

Definition state_299 : Dashboard.vehicle_state :=
  {| Dashboard.source := sample "BUS12" 50 (JS.Bool false) 1299;
     Dashboard.formattedTime := "1299";
     Dashboard.isDrowsy := true;
     Dashboard.secondsSinceAlert := Some 299;
     Dashboard.driverPhone := "+880 1717000000" |}.

(** Scenario: three vehicles at 45, 0 and 82 km/h. *)
Definition batch_three : list Dashboard.record :=
  [sample "BUS12" 45 (JS.Bool false) 1700000000;
   sample "TRUCK7" 0 (JS.Bool false) 1700000001;
   sample "VAN3" 82 (JS.Bool false) 1700000002].

Definition fleet_three : Dashboard.fleet :=
  Eval vm_compute in
    returned_or_empty (Dashboard.processFleetData (H := example_runtime) batch_three).

(** Scenario: two samples of one vehicle carrying the same timestamp. *)
Definition batch_tie : list Dashboard.record :=
  [sample "BUS12" 10 (JS.Bool false) 1000; sample "BUS12" 20 (JS.Bool false) 1000].

Definition batch_tie_swapped : list Dashboard.record :=
  [sample "BUS12" 20 (JS.Bool false) 1000; sample "BUS12" 10 (JS.Bool false) 1000].

(** Scenario: batch_299 for a vehicle whose identifier is ["__proto__"]. *)
Definition batch_proto : list Dashboard.record :=
  [sample "__proto__" 45 (JS.Bool true) 1000;
   sample "__proto__" 50 (JS.Bool false) 1299].

(** Scenario: a single quiet sample early in the epoch. *)
Definition batch_early : list Dashboard.record :=
  [sample "BUS12" 45 (JS.Bool false) 100].

(** Scenario: a single sample whose alert is the string ["true"]. *)
Definition batch_true_string : list Dashboard.record :=
  [sample "BUS12" 45 (JS.Str "true") 1700000000].

(** ** Notions used to state the properties *)

Module Notions.
Import JS Dashboard.

(** [vehicleMap.get(id)]. *)
Fixpoint map_get (id : string) (m : list (string * vehicle_state))
  : option vehicle_state :=
  match m with
  | [] => None
  | (id', v) :: rest => if String.eqb id id' then Some v else map_get id rest
  end.

(** The last record of vehicle [id] in a list. *)
Fixpoint last_of (id : string) (l : list record) : option record :=
  match l with
  | [] => None
  | r :: rest =>
      match last_of id rest with
      | Some r' => Some r'
      | None => if String.eqb id (vehicleId r) then Some r else None
      end
  end.

(** [T] is the greatest timestamp of the batch. *)
Definition max_timestamp (raw : list record) (T : Z) : Prop :=
  (exists r, In r raw /\ timestamp r = T)
  /\ forall r, In r raw -> timestamp r <= T.

(** [t] is the time of the last truthy alert of vehicle [id]. *)
Definition last_alert_time (raw : list record) (id : string) (t : Z) : Prop :=
  (exists r, In r raw /\ vehicleId r = id /\ isAlertRecord (alert r) = true
             /\ timestamp r = t)
  /\ forall r, In r raw -> vehicleId r = id -> isAlertRecord (alert r) = true ->
               timestamp r <= t.

(** Vehicle [id] never raised a truthy alert. *)
Definition never_alerted (raw : list record) (id : string) : Prop :=
  forall r, In r raw -> vehicleId r = id -> isAlertRecord (alert r) = false.

(** [r] is a most recent record of its vehicle. *)
Definition latest_record (raw : list record) (r : record) : Prop :=
  In r raw
  /\ forall r', In r' raw -> vehicleId r' = vehicleId r -> timestamp r' <= timestamp r.

Definition by_timestamp (a b : record) : Prop := timestamp a <= timestamp b.

Definition total_speed (vs : list vehicle_state) : Z :=
  fold_right (fun v sum => speed (source v) + sum) 0 vs.

End Notions.

(* ===================================================================== *)
(** * Part II: properties                                                 *)
(* ===================================================================== *)

(** ** Objects *)

Lemma lookup_assign_same (k : string) (x : JS.val) (props : list (string * JS.val)) :
  JS.lookup_prop k (JS.assign_prop k x props) = x.
Proof.
  induction props as [|[k' v] rest IH]; simpl.
  - now rewrite String.eqb_refl.
  - destruct (String.eqb k k') eqn:E; simpl.
    + now rewrite String.eqb_refl.
    + now rewrite E.
Qed.

Lemma lookup_assign_other (k k' : string) (x : JS.val) (props : list (string * JS.val)) :
  k <> k' ->
  JS.lookup_prop k' (JS.assign_prop k x props) = JS.lookup_prop k' props.
Proof.
  intros Hne. induction props as [|[k0 v] rest IH]; simpl.
  - destruct (String.eqb k' k) eqn:E; [|reflexivity].
    apply String.eqb_eq in E. congruence.
  - destruct (String.eqb k k0) eqn:E; simpl.
    + apply String.eqb_eq in E. subst k0.
      destruct (String.eqb k' k) eqn:E'; [|reflexivity].
      apply String.eqb_eq in E'. congruence.
    + now rewrite IH.
Qed.

Lemma is_undefined_spec (v : JS.val) : {v = JS.Undefined} + {v <> JS.Undefined}.
Proof. destruct v; (now left) || (right; discriminate). Qed.

Lemma truthy_get_object (v : JS.val) (k : string) :
  JS.truthy (JS.get v k) = true -> exists props, v = JS.Obj props.
Proof. destruct v; simpl; try discriminate. eauto. Qed.

Lemma get_set_same (props : list (string * JS.val)) (k : string) (x : JS.val) :
  JS.get (JS.set (JS.Obj props) k x) k = x.
Proof. simpl. apply lookup_assign_same. Qed.

Lemma get_set_other (props : list (string * JS.val)) (k k' : string) (x : JS.val) :
  k <> k' -> JS.get (JS.set (JS.Obj props) k x) k' = JS.get (JS.Obj props) k'.
Proof. simpl. apply lookup_assign_other. Qed.

(** ** The acknowledgment reducer *)

Section Acknowledgment.
Import Dashboard.

Lemma acknowledged_insert (state : gmap string Z) (id : string) (expiry : Z) :
  expiry <> 0 -> acknowledged (<[id := expiry]> state) id = true.
Proof.
  intros Hne. unfold acknowledged. rewrite lookup_insert_eq.
  destruct (Z.eqb_spec expiry 0); [contradiction | reflexivity].
Qed.

Lemma cleanup_lookup (now : Z) (state : gmap string Z) (id : string) :
  reducer now state CLEANUP !! id =
  match state !! id with
  | Some expiry => if Z.ltb now expiry then Some expiry else None
  | None => None
  end.
Proof.
  simpl. rewrite map_lookup_filter.
  destruct (state !! id) as [expiry|]; simpl; [|reflexivity].
  destruct (Z.ltb_spec now expiry).
  - now rewrite option_guard_True.
  - rewrite option_guard_False; [reflexivity | simpl; lia].
Qed.

(** C2 (as amended): the read is the plain lookup [acknowledged[id]].
    For a vehicle whose identifier is not a name inherited from
    [Object.prototype]: after [ACKNOWLEDGE] at time [t] the entry expires
    at [t + 300000] ms and the read is true, whatever the clock says, as
    long as no [CLEANUP] has run; after a [CLEANUP] at time [c] the read
    is true exactly when [c] is before the expiry. *)
Theorem acknowledged_until_cleanup (t : Z) (state : gmap string Z) (id : string) :
  0 <= t ->
  JS.inherited id = false ->
  reducer t state (ACKNOWLEDGE id) !! id = Some (t + 300000)
  /\ acknowledged (reducer t state (ACKNOWLEDGE id)) id = true
  /\ forall c : Z,
       acknowledged (reducer c (reducer t state (ACKNOWLEDGE id)) CLEANUP) id
       = Z.ltb c (t + 300000).
Proof.
  intros Ht Hord.
  assert (Hins : reducer t state (ACKNOWLEDGE id) !! id = Some (t + 300000)).
  { simpl. replace (t + 5 * 60 * 1000) with (t + 300000) by lia.
    apply lookup_insert_eq. }
  split; [exact Hins|]. split.
  - unfold acknowledged. rewrite Hins.
    destruct (Z.eqb_spec (t + 300000) 0); [lia | reflexivity].
  - intros c. unfold acknowledged. rewrite cleanup_lookup, Hins.
    destruct (Z.ltb c (t + 300000)); [|exact Hord].
    destruct (Z.eqb_spec (t + 300000) 0); [lia | reflexivity].
Qed.

Lemma acknowledged_until_cleanup_witness :
  0 <= 1000
  /\ JS.inherited "BUS12" = false
  /\ reducer 1000 ∅ (ACKNOWLEDGE "BUS12") !! "BUS12" = Some 301000
  /\ acknowledged (reducer 1000 ∅ (ACKNOWLEDGE "BUS12")) "BUS12" = true
  /\ forall c : Z,
       acknowledged (reducer c (reducer 1000 ∅ (ACKNOWLEDGE "BUS12")) CLEANUP) "BUS12"
       = Z.ltb c 301000.
Proof.
  split; [lia|]. split; [reflexivity|].
  apply (acknowledged_until_cleanup 1000 ∅ "BUS12"); [lia | reflexivity].
Defined.

(** C2 (as stated) fails: acknowledged at time 0, the entry expires at
    300000; read at 300001 with no [CLEANUP] in between, the state is the
    one [ACKNOWLEDGE] produced and the read is still true. *)
Lemma acknowledged_read_ignores_clock :
  reducer 0 ∅ (ACKNOWLEDGE "BUS12") !! "BUS12" = Some 300000
  /\ 300000 <= 0 + 300000 + 1
  /\ acknowledged (reducer 0 ∅ (ACKNOWLEDGE "BUS12")) "BUS12" = true.
Proof.
  split; [apply lookup_insert_eq|]. split; [lia|].
  apply acknowledged_insert. lia.
Qed.

End Acknowledgment.

(** ** The siren command handler *)

Section SirenHandler.
Import JS Store.

Lemma includes_allowed (c : val) :
  Siren.includes Siren.allowedCommands c = true <->
  c = Str "KILL_ENGINE" \/ c = Str "TRIGGER_ALARM" \/ c = Str "RESET".
Proof.
  destruct c as [| |b|n|s|props]; simpl;
    try (split; [discriminate | intros [?|[?|?]]; discriminate]).
  rewrite !orb_true_iff, !String.eqb_eq. split.
  - intros [->|[->|[->|?]]]; [auto | auto | auto | discriminate].
  - intros [E|[E|E]]; injection E as E'; subst s; auto.
Qed.

Lemma allowed_truthy (c : val) :
  Siren.includes Siren.allowedCommands c = true -> truthy c = true.
Proof.
  intros Hc. apply includes_allowed in Hc as [-> | [-> | ->]]; reflexivity.
Qed.

(** C9: a submission whose command is absent or outside the allow-list is
    answered 400 and leaves the collection untouched; a submission with a
    listed command and a vehicle identifier is stored, when the collection
    accepts the insert, with status ["PENDING"] and the server's clock as
    timestamp, whatever timestamp the client sent. *)
Theorem siren_allow_list (now : Z) (db : collection) (fields : list (string * val)) :
  (~ (get (Obj fields) "command" = Str "KILL_ENGINE"
      \/ get (Obj fields) "command" = Str "TRIGGER_ALARM"
      \/ get (Obj fields) "command" = Str "RESET") ->
   status (Siren.res (Siren.handler_post now db (Obj fields))) = 400
   /\ Siren.store (Siren.handler_post now db (Obj fields)) = db)
  /\
  (get (Obj fields) "command" = Str "KILL_ENGINE"
   \/ get (Obj fields) "command" = Str "TRIGGER_ALARM"
   \/ get (Obj fields) "command" = Str "RESET" ->
   truthy (get (Obj fields) "vehicleId") = true ->
   online db = true ->
   status (Siren.res (Siren.handler_post now db (Obj fields))) = 201
   /\ insertedId (Siren.res (Siren.handler_post now db (Obj fields)))
      = Some (length (docs db))
   /\ exists d : val,
        docs (Siren.store (Siren.handler_post now db (Obj fields))) = (docs db ++ [d])%list
        /\ get d "vehicleId" = get (Obj fields) "vehicleId"
        /\ get d "command" = get (Obj fields) "command"
        /\ get d "status" = Str "PENDING"
        /\ get d "timestamp" = Num (Fin (Qmake now 1000))).
Proof.
  split.
  - intros Hno. rewrite <- includes_allowed in Hno.
    apply not_true_is_false in Hno.
    unfold Siren.handler_post. cbn [nullish].
    destruct (negb (truthy (get (Obj fields) "vehicleId"))
              || negb (truthy (get (Obj fields) "command"))); [now split|].
    rewrite Hno. now split.
  - intros Hyes Hid Hon. pose proof Hyes as Hin.
    rewrite <- includes_allowed in Hin.
    unfold Siren.handler_post, insertOne. cbn [nullish].
    rewrite Hid, (allowed_truthy _ Hin), Hin, Hon. cbn.
    repeat split. eexists. repeat split.
Qed.

Lemma siren_allow_list_witness :
  (~ (Str "HONK" = Str "KILL_ENGINE" \/ Str "HONK" = Str "TRIGGER_ALARM"
      \/ Str "HONK" = Str "RESET")
   /\ status (Siren.res (Siren.handler_post 1700000000000
        empty_db
        (Obj [("vehicleId", Str "BUS12"); ("command", Str "HONK")]))) = 400)
  /\
  ((Str "TRIGGER_ALARM" = Str "KILL_ENGINE"
    \/ Str "TRIGGER_ALARM" = Str "TRIGGER_ALARM"
    \/ Str "TRIGGER_ALARM" = Str "RESET")
   /\ status (Siren.res (Siren.handler_post 1700000000000
        empty_db
        (Obj [("vehicleId", Str "BUS12"); ("timestamp", Num (Fin (Qmake 5 1)));
              ("command", Str "TRIGGER_ALARM")]))) = 201).
Proof.
  split.
  - assert (Hno : ~ (Str "HONK" = Str "KILL_ENGINE"
                     \/ Str "HONK" = Str "TRIGGER_ALARM"
                     \/ Str "HONK" = Str "RESET")).
    { intros [E|[E|E]]; discriminate E. }
    split; [exact Hno|].
    exact (proj1 (proj1 (siren_allow_list 1700000000000 empty_db
                   [("vehicleId", Str "BUS12"); ("command", Str "HONK")]) Hno)).
  - assert (Hyes : Str "TRIGGER_ALARM" = Str "KILL_ENGINE"
                   \/ Str "TRIGGER_ALARM" = Str "TRIGGER_ALARM"
                   \/ Str "TRIGGER_ALARM" = Str "RESET").
    { right. left. reflexivity. }
    split; [exact Hyes|].
    exact (proj1 (proj2 (siren_allow_list 1700000000000 empty_db
                   [("vehicleId", Str "BUS12"); ("timestamp", Num (Fin (Qmake 5 1)));
                    ("command", Str "TRIGGER_ALARM")]) Hyes eq_refl eq_refl)).
Defined.

(** A [null] body makes the destructuring throw: 500, nothing stored. *)
Lemma siren_null_body (now : Z) (db : collection) :
  Siren.handler_post now db Null
  = {| Siren.store := db; Siren.res := reply 500 "Internal Server Error" |}.
Proof. reflexivity. Qed.

End SirenHandler.

(** ** The telemetry ingestion handler *)

Section DataHandler.
Import JS Store.
Context `{Runtime}.

(** The three ways [handler_post] ends, by the guards it passes. *)
Lemma data_missing (now : Z) (db : collection) (data : val) :
  truthy (get data "vehicleId") = false \/ get data "speed" = Undefined
  \/ truthy (get data "gps") = false ->
  Data.handler_post now db data
  = {| Data.store := db;
       Data.res := reply 400 "Missing required vehicle data fields.";
       Data.warned := false |}.
Proof.
  intros Hm. unfold Data.handler_post.
  destruct Hm as [E | [E | E]]; rewrite E; cbn;
    now rewrite ?orb_true_r.
Qed.

Lemma data_guard_passed (data : val) :
  truthy (get data "vehicleId") = true -> get data "speed" <> Undefined ->
  truthy (get data "gps") = true ->
  negb (truthy data) || negb (truthy (get data "vehicleId"))
  || is_undefined (get data "speed") || negb (truthy (get data "gps")) = false.
Proof.
  intros Hid Hsp Hgps. destruct (truthy_get_object _ _ Hid) as [props ->].
  rewrite Hid, Hgps. cbn [truthy negb orb].
  destruct (get (Obj props) "speed"); try reflexivity. congruence.
Qed.

Lemma data_invalid_gps (now : Z) (db : collection) (data : val) :
  truthy (get data "vehicleId") = true -> get data "speed" <> Undefined ->
  truthy (get data "gps") = true ->
  isFinite (Number (get (get data "gps") "lat")) = false
  \/ isFinite (Number (get (get data "gps") "lng")) = false ->
  Data.handler_post now db data
  = {| Data.store := db; Data.res := reply 400 "Invalid GPS values.";
       Data.warned := false |}.
Proof.
  intros Hid Hsp Hgps Hbad. unfold Data.handler_post.
  rewrite (data_guard_passed _ Hid Hsp Hgps).
  destruct Hbad as [E | E]; rewrite E; cbn; now rewrite ?orb_true_r.
Qed.

Lemma data_accepted (now : Z) (db : collection) (data : val) :
  truthy (get data "vehicleId") = true -> get data "speed" <> Undefined ->
  truthy (get data "gps") = true ->
  isFinite (Number (get (get data "gps") "lat")) = true ->
  isFinite (Number (get (get data "gps") "lng")) = true ->
  online db = true ->
  Data.store (Data.handler_post now db data)
  = {| online := true; docs := docs db ++ [Data.normalised now data] |}
  /\ Data.res (Data.handler_post now db data)
     = {| status := 201; message := "Data saved successfully";
          insertedId := Some (length (docs db)) |}.
Proof.
  intros Hid Hsp Hgps Hlat Hlng Hon. unfold Data.handler_post, insertOne.
  rewrite (data_guard_passed _ Hid Hsp Hgps), Hlat, Hlng, Hon. cbn.
  now split.
Qed.

Lemma normalised_field (now : Z) (props : list (string * val)) (k : string) :
  k <> "gps" -> k <> "timestamp" ->
  get (Data.normalised now (Obj props)) k = get (Obj props) k.
Proof.
  intros Hg Ht. unfold Data.normalised.
  destruct (negb _); cbn [set get];
    rewrite ?lookup_assign_other by congruence; reflexivity.
Qed.

Lemma normalised_timestamp (now : Z) (props : list (string * val)) :
  get (Data.normalised now (Obj props)) "timestamp"
  = if truthy (get (Obj props) "timestamp")
    then get (Obj props) "timestamp"
    else Num (Fin (Qmake now 1000)).
Proof.
  unfold Data.normalised. cbn [set get].
  rewrite (lookup_assign_other "gps" "timestamp") by discriminate.
  destruct (truthy (lookup_prop "timestamp" props)); cbn [negb get].
  - apply lookup_assign_other. discriminate.
  - apply lookup_assign_same.
Qed.

(** Whatever the payload, either nothing is stored or the normalised
    payload is appended and the answer is 201. *)
Lemma data_outcome (now : Z) (db : collection) (data : val) :
  (status (Data.res (Data.handler_post now db data)) <> 201
   /\ Data.store (Data.handler_post now db data) = db)
  \/
  (status (Data.res (Data.handler_post now db data)) = 201
   /\ docs (Data.store (Data.handler_post now db data))
      = (docs db ++ [Data.normalised now data])%list
   /\ exists props, data = Obj props).
Proof.
  destruct (truthy (get data "vehicleId")) eqn:Hid;
    [| rewrite (data_missing now db data) by auto; left; now split].
  destruct (is_undefined_spec (get data "speed")) as [Hsp | Hsp];
    [rewrite (data_missing now db data) by auto; left; now split |].
  destruct (truthy (get data "gps")) eqn:Hgps;
    [| rewrite (data_missing now db data) by auto; left; now split].
  destruct (isFinite (Number (get (get data "gps") "lat"))) eqn:Hlat;
    [| rewrite (data_invalid_gps now db data) by auto; left; now split].
  destruct (isFinite (Number (get (get data "gps") "lng"))) eqn:Hlng;
    [| rewrite (data_invalid_gps now db data) by auto; left; now split].
  destruct (online db) eqn:Hon.
  - right. destruct (data_accepted now db data) as [Hst Hres]; auto.
    rewrite Hst, Hres. split; [reflexivity|]. split; [reflexivity|].
    eapply truthy_get_object, Hid.
  - left. unfold Data.handler_post, insertOne.
    rewrite (data_guard_passed _ Hid Hsp Hgps), Hlat, Hlng, Hon. cbn.
    now split.
Qed.

Local Ltac rejected :=
  cbn; unfold reply; intuition (try congruence; try discriminate).

(** C5 (as amended): the handler answers "Missing required vehicle data
    fields." exactly when [vehicleId] is absent or falsy, [speed] is
    undefined, or [gps] is absent or falsy; past that guard it answers
    "Invalid GPS values." when [lat] or [lng] does not convert to a finite
    number; every other payload is stored and answered 201 with the
    identifier of the insertion when the collection accepts the insert,
    whatever its other fields. *)
Theorem telemetry_validation (now : Z) (db : collection) (data : val) :
  online db = true ->
  (status (Data.res (Data.handler_post now db data)) = 201 <->
   truthy (get data "vehicleId") = true /\ get data "speed" <> Undefined
   /\ truthy (get data "gps") = true
   /\ isFinite (Number (get (get data "gps") "lat")) = true
   /\ isFinite (Number (get (get data "gps") "lng")) = true)
  /\
  (Data.res (Data.handler_post now db data)
   = reply 400 "Missing required vehicle data fields." <->
   truthy (get data "vehicleId") = false \/ get data "speed" = Undefined
   \/ truthy (get data "gps") = false)
  /\
  (status (Data.res (Data.handler_post now db data)) = 201 ->
   insertedId (Data.res (Data.handler_post now db data)) = Some (length (docs db))
   /\ exists d : val,
        docs (Data.store (Data.handler_post now db data)) = (docs db ++ [d])%list
        /\ get d "vehicleId" = get data "vehicleId"
        /\ get d "speed" = get data "speed")
  /\
  (status (Data.res (Data.handler_post now db data)) <> 201 ->
   Data.store (Data.handler_post now db data) = db).
Proof.
  intros Hon.
  destruct (truthy (get data "vehicleId")) eqn:Hid;
    [| rewrite (data_missing now db data) by auto; rejected].
  destruct (is_undefined_spec (get data "speed")) as [Hsp | Hsp];
    [rewrite (data_missing now db data) by auto; rejected |].
  destruct (truthy (get data "gps")) eqn:Hgps;
    [| rewrite (data_missing now db data) by auto; rejected].
  destruct (isFinite (Number (get (get data "gps") "lat"))) eqn:Hlat;
    [| rewrite (data_invalid_gps now db data) by auto; rejected].
  destruct (isFinite (Number (get (get data "gps") "lng"))) eqn:Hlng;
    [| rewrite (data_invalid_gps now db data) by auto; rejected].
  destruct (data_accepted now db data) as [Hst Hres]; auto.
  rewrite Hst, Hres. cbn.
  destruct (truthy_get_object _ _ Hid) as [props ->].
  split; [tauto|].
  split; [unfold reply; split; [discriminate | intros [E | [E | E]]; congruence]|].
  split; [|congruence].
  intros _. split; [reflexivity|].
  eexists. split; [reflexivity|].
  split; apply normalised_field; discriminate.
Qed.

Lemma normalised_gps (now : Z) (props : list (string * val)) :
  get (Data.normalised now (Obj props)) "gps"
  = Obj [("lat", Num (Number (get (get (Obj props) "gps") "lat")));
         ("lng", Num (Number (get (get (Obj props) "gps") "lng")))].
Proof.
  unfold Data.normalised. destruct (negb _); cbn [set get].
  - rewrite (lookup_assign_other "timestamp" "gps") by discriminate.
    apply lookup_assign_same.
  - apply lookup_assign_same.
Qed.

(** C10: a valid payload whose [timestamp] is falsy (absent, [0], [null],
    the empty string, ...) is accepted and stored with the ingestion time
    [Date.now() / 1000], which is not 0, in the place of that value; and
    it is treated exactly like any other payload that differs from it in
    its falsy [timestamp] only, the one without [timestamp] among them:
    same answer, and stored documents with the same properties. *)
Theorem falsy_timestamp_overwritten (now : Z) (db : collection) (data : val) :
  0 < now ->
  truthy (get data "timestamp") = false ->
  truthy (get data "vehicleId") = true ->
  get data "speed" <> Undefined ->
  truthy (get data "gps") = true ->
  isFinite (Number (get (get data "gps") "lat")) = true ->
  isFinite (Number (get (get data "gps") "lng")) = true ->
  online db = true ->
  status (Data.res (Data.handler_post now db data)) = 201
  /\ exists d : val,
       docs (Data.store (Data.handler_post now db data)) = (docs db ++ [d])%list
       /\ get d "timestamp" = Num (Fin (Qmake now 1000))
       /\ strict_eq (get d "timestamp") (Num (Fin (Qmake 0 1))) = false
       /\ truthy (get d "timestamp") = true
       /\ forall data' : val,
            (forall k, k <> "timestamp" -> get data' k = get data k) ->
            truthy (get data' "timestamp") = false ->
            Data.res (Data.handler_post now db data')
            = Data.res (Data.handler_post now db data)
            /\ exists d' : val,
                 docs (Data.store (Data.handler_post now db data'))
                 = (docs db ++ [d'])%list
                 /\ forall k, get d' k = get d k.
Proof.
  intros Hnow Hfalsy Hid Hsp Hgps Hlat Hlng Hon.
  destruct (data_accepted now db data Hid Hsp Hgps Hlat Hlng Hon) as [Hst Hres].
  rewrite Hst, Hres. cbn [status docs].
  split; [reflexivity|].
  destruct (truthy_get_object _ _ Hid) as [props ->].
  exists (Data.normalised now (Obj props)).
  assert (Hts : forall props0,
             truthy (get (Obj props0) "timestamp") = false ->
             get (Data.normalised now (Obj props0)) "timestamp"
             = Num (Fin (Qmake now 1000))).
  { intros props0 Hf. now rewrite normalised_timestamp, Hf. }
  split; [reflexivity|]. rewrite (Hts props Hfalsy).
  split; [reflexivity|]. split; [|split].
  - unfold strict_eq, Qeq_bool. cbn [Qnum Qden]. apply Z.eqb_neq. lia.
  - cbn. apply negb_true_iff, Z.eqb_neq. lia.
  - intros data' Hsame Hfalsy'.
    assert (Hid' : truthy (get data' "vehicleId") = true)
      by (rewrite Hsame by discriminate; exact Hid).
    assert (Hsp' : get data' "speed" <> Undefined)
      by (rewrite Hsame by discriminate; exact Hsp).
    assert (Hgps' : truthy (get data' "gps") = true)
      by (rewrite Hsame by discriminate; exact Hgps).
    assert (Hg : get data' "gps" = get (Obj props) "gps")
      by (apply Hsame; discriminate).
    assert (Hlat' : isFinite (Number (get (get data' "gps") "lat")) = true)
      by (rewrite Hg; exact Hlat).
    assert (Hlng' : isFinite (Number (get (get data' "gps") "lng")) = true)
      by (rewrite Hg; exact Hlng).
    destruct (data_accepted now db data' Hid' Hsp' Hgps' Hlat' Hlng' Hon)
      as [Hst' Hres'].
    rewrite Hst', Hres'. split; [reflexivity|].
    destruct (truthy_get_object _ _ Hid') as [props' ->].
    exists (Data.normalised now (Obj props')). split; [reflexivity|].
    intros k.
    destruct (String.eqb_spec k "timestamp") as [-> | Hkt].
    { now rewrite (Hts props' Hfalsy'), (Hts props Hfalsy). }
    destruct (String.eqb_spec k "gps") as [-> | Hkg].
    { rewrite !normalised_gps. now rewrite Hg. }
    rewrite !normalised_field by assumption. now apply Hsame.
Qed.

End DataHandler.

Lemma telemetry_validation_witness :
  Store.online empty_db = true
  /\ Store.status (Data.res (Data.handler_post (H := example_runtime)
        1700000000000 empty_db payload_complete)) = 201.
Proof.
  split; [reflexivity|].
  apply (telemetry_validation (H := example_runtime) 1700000000000 empty_db);
    [reflexivity|].
  repeat split; discriminate.
Defined.

(** C5 (as stated) fails: a payload with a vehicle identifier and finite
    coordinates but no [speed] is rejected, and nothing is stored. *)
Lemma telemetry_without_speed_rejected :
  JS.get payload_without_speed "vehicleId" = JS.Str "BUS12"
  /\ JS.isFinite (JS.Number (H := example_runtime)
        (JS.get (JS.get payload_without_speed "gps") "lat")) = true
  /\ JS.isFinite (JS.Number (H := example_runtime)
        (JS.get (JS.get payload_without_speed "gps") "lng")) = true
  /\ Data.res (Data.handler_post (H := example_runtime)
        1700000000000 empty_db payload_without_speed)
     = Store.reply 400 "Missing required vehicle data fields."
  /\ Data.store (Data.handler_post (H := example_runtime)
        1700000000000 empty_db payload_without_speed) = empty_db.
Proof. repeat split. Qed.

Lemma falsy_timestamp_overwritten_witness :
  0 < 1700000000000
  /\ JS.truthy (JS.get payload_timestamp_0 "timestamp") = false
  /\ Store.status (Data.res (Data.handler_post (H := example_runtime)
       1700000000000 empty_db payload_timestamp_0)) = 201
  /\ exists d : JS.val,
       Store.docs (Data.store (Data.handler_post (H := example_runtime)
         1700000000000 empty_db payload_timestamp_0))
       = (Store.docs empty_db ++ [d])%list
       /\ JS.get d "timestamp" = JS.Num (JS.Fin (Qmake 1700000000000 1000)).
Proof.
  assert (Hnow : 0 < 1700000000000) by lia.
  assert (Hsp : JS.get payload_timestamp_0 "speed" <> JS.Undefined)
    by (vm_compute; discriminate).
  split; [exact Hnow|]. split; [reflexivity|].
  destruct (falsy_timestamp_overwritten (H := example_runtime)
              1700000000000 empty_db payload_timestamp_0
              Hnow eq_refl eq_refl Hsp eq_refl eq_refl eq_refl eq_refl)
    as (Hok & d & Hdocs & Hts & _).
  split; [exact Hok|]. exists d. now split.
Defined.

(** The payload posted with timestamp 0 is indeed accepted. *)
Example timestamp_0_accepted :
  Store.status (Data.res (Data.handler_post (H := example_runtime)
    1700000000000 empty_db payload_timestamp_0)) = 201.
Proof. reflexivity. Qed.

(** ** Sorting by timestamp *)

Section Sorting.
Import JS Dashboard Notions.

#[local] Instance by_timestamp_trans : Transitive by_timestamp.
Proof. unfold by_timestamp. intros a b c. lia. Qed.

Lemma insert_sorted_perm (r : record) (l : list record) :
  Permutation (insert_sorted r l) (r :: l).
Proof.
  induction l as [|h t IH]; simpl; [reflexivity|].
  destruct (Z.leb _ 0); [reflexivity|].
  rewrite IH. apply perm_swap.
Qed.

Lemma sort_perm (l : list record) : Permutation (sort_by_timestamp l) l.
Proof.
  induction l as [|r rest IH]; simpl; [reflexivity|].
  rewrite insert_sorted_perm. now constructor.
Qed.

Lemma insert_sorted_hd (x r : record) (l : list record) :
  by_timestamp x r -> HdRel by_timestamp x l ->
  HdRel by_timestamp x (insert_sorted r l).
Proof.
  intros Hxr Hl. destruct l as [|h t]; simpl; [now constructor|].
  destruct (Z.leb _ 0); constructor; [exact Hxr|].
  now inversion Hl.
Qed.

Lemma insert_sorted_Sorted (r : record) (l : list record) :
  Sorted by_timestamp l -> Sorted by_timestamp (insert_sorted r l).
Proof.
  induction 1 as [|h t Hs IH Hhd]; simpl; [repeat constructor|].
  destruct (Z.leb_spec (timestamp r - timestamp h) 0) as [Hle | Hgt].
  - constructor; [now constructor|]. constructor. unfold by_timestamp. lia.
  - constructor; [exact IH|].
    apply insert_sorted_hd; [unfold by_timestamp; lia | exact Hhd].
Qed.

Lemma sort_Sorted (l : list record) : Sorted by_timestamp (sort_by_timestamp l).
Proof.
  induction l as [|r rest IH]; simpl; [constructor|].
  now apply insert_sorted_Sorted.
Qed.

Lemma sort_StronglySorted (l : list record) :
  StronglySorted by_timestamp (sort_by_timestamp l).
Proof. apply Sorted_StronglySorted; [apply by_timestamp_trans | apply sort_Sorted]. Qed.

Lemma sort_In (l : list record) (r : record) :
  In r (sort_by_timestamp l) <-> In r l.
Proof.
  split; apply Permutation_in; [|symmetry]; apply sort_perm.
Qed.

Lemma sort_nil_inv (l : list record) : sort_by_timestamp l = [] -> l = [].
Proof.
  intros E. apply Permutation_nil. rewrite <- E. apply sort_perm.
Qed.

Lemma StronglySorted_snoc (l : list record) (r : record) :
  StronglySorted by_timestamp (l ++ [r]) ->
  StronglySorted by_timestamp l /\ forall x, In x l -> timestamp x <= timestamp r.
Proof.
  induction l as [|h t IH]; simpl; intros Hs.
  - split; [constructor | intros x []].
  - inversion Hs as [|? ? Ht Hall]; subst.
    destruct (IH Ht) as [Hst Hle]. split.
    + constructor; [exact Hst|].
      rewrite Forall_app in Hall. tauto.
    + intros x [<- | Hx]; [|now apply Hle].
      rewrite Forall_app, Forall_singleton in Hall. apply Hall.
Qed.

Lemma last_timestamp_snoc (l : list record) (r : record) :
  last_timestamp (l ++ [r]) = timestamp r.
Proof. unfold last_timestamp. now rewrite rev_unit. Qed.

(** The timestamp of the last sorted record is the greatest timestamp of
    a non-empty batch. *)
Lemma last_timestamp_max (raw : list record) :
  raw <> [] -> max_timestamp raw (last_timestamp (sort_by_timestamp raw)).
Proof.
  intros Hne. pose proof (sort_StronglySorted raw) as Hs.
  assert (Hne' : sort_by_timestamp raw <> [])
    by (intros E; apply sort_nil_inv in E; contradiction).
  destruct (exists_last Hne') as (l & x & E).
  rewrite E in Hs. rewrite E, last_timestamp_snoc.
  destruct (StronglySorted_snoc _ _ Hs) as [_ Hle]. split.
  - exists x. split; [|reflexivity].
    apply sort_In. rewrite E, in_app_iff. simpl. auto.
  - intros r Hr. apply sort_In in Hr. rewrite E, in_app_iff in Hr.
    destruct Hr as [Hr | [<- | []]]; [now apply Hle | lia].
Qed.

Lemma max_timestamp_unique (raw : list record) (T T' : Z) :
  max_timestamp raw T -> max_timestamp raw T' -> T = T'.
Proof.
  intros [(r & Hr & <-) HT] [(r' & Hr' & <-) HT'].
  specialize (HT _ Hr'). specialize (HT' _ Hr). lia.
Qed.

End Sorting.

(** ** The first pass *)

Section FirstPass.
Import JS Dashboard Notions.

Lemma first_pass_snoc (l : list record) (r : record) :
  first_pass (l ++ [r])
  = if isAlertRecord (alert r)
    then assign_time (vehicleId r) (timestamp r) (first_pass l)
    else first_pass l.
Proof. unfold first_pass. now rewrite fold_left_app. Qed.

(** No alert time is ever recorded under ["__proto__"]. *)
Lemma first_pass_proto (l : list record) : first_pass l !! "__proto__" = None.
Proof.
  induction l as [|r l IH] using rev_ind.
  - unfold first_pass. simpl. apply lookup_empty.
  - rewrite first_pass_snoc. destruct (isAlertRecord (alert r)); [|exact IH].
    unfold assign_time.
    destruct (String.eqb_spec (vehicleId r) "__proto__") as [E | Hne]; [exact IH|].
    now rewrite lookup_insert_ne.
Qed.

(** On a sorted batch [lastAlertTimes] holds, for each vehicle other than
    ["__proto__"], the time of its last truthy alert, and nothing for a
    vehicle without one. *)
Lemma first_pass_sorted (l : list record) :
  StronglySorted by_timestamp l ->
  forall id : string,
    id <> "__proto__" ->
    match first_pass l !! id with
    | Some t => last_alert_time l id t
    | None => never_alerted l id
    end.
Proof.
  induction l as [|r l IH] using rev_ind; intros Hs id Hid.
  - unfold first_pass. simpl. rewrite lookup_empty. intros r [].
  - destruct (StronglySorted_snoc _ _ Hs) as [Hl Hle].
    specialize (IH Hl id Hid). rewrite first_pass_snoc.
    assert (Hskip :
              vehicleId r <> id \/ isAlertRecord (alert r) = false ->
              match first_pass l !! id with
              | Some t => last_alert_time (l ++ [r]) id t
              | None => never_alerted (l ++ [r]) id
              end).
    { intros Hr. destruct (first_pass l !! id) as [t|].
      - destruct IH as [(r0 & Hr0 & Hrest) Hmax]. split.
        + exists r0. rewrite in_app_iff. auto.
        + intros r' Hr' Hid' Hal. rewrite in_app_iff in Hr'.
          destruct Hr' as [Hr' | [<- | []]]; [now apply Hmax|].
          destruct Hr as [Hr | Hr]; [contradiction | congruence].
      - intros r' Hr' Hid'. rewrite in_app_iff in Hr'.
        destruct Hr' as [Hr' | [<- | []]]; [now apply IH|].
        destruct Hr as [Hr | Hr]; [contradiction | exact Hr]. }
    destruct (isAlertRecord (alert r)) eqn:Ha; [|apply Hskip; auto].
    unfold assign_time.
    destruct (String.eqb_spec (vehicleId r) "__proto__") as [E | Hne];
      [apply Hskip; left; congruence|].
    destruct (decide (vehicleId r = id)) as [<- | Hne'].
    + rewrite lookup_insert_eq. split.
      * exists r. rewrite in_app_iff. simpl. auto.
      * intros r' Hr' _ _. rewrite in_app_iff in Hr'.
        destruct Hr' as [Hr' | [<- | []]]; [now apply Hle | lia].
    + rewrite lookup_insert_ne by exact Hne'. apply Hskip. auto.
Qed.

Lemma last_alert_time_sort (raw : list record) (id : string) (t : Z) :
  last_alert_time (sort_by_timestamp raw) id t <-> last_alert_time raw id t.
Proof.
  unfold last_alert_time. split; intros [(r & Hr & Hrest) Hmax]; split.
  - exists r. now rewrite <- sort_In.
  - intros r' Hr'. apply Hmax. now rewrite sort_In.
  - exists r. now rewrite sort_In.
  - intros r' Hr'. apply Hmax. now rewrite <- sort_In.
Qed.

Lemma last_alert_time_unique (raw : list record) (id : string) (t t' : Z) :
  last_alert_time raw id t -> last_alert_time raw id t' -> t = t'.
Proof.
  intros [(r & Hr & Hid & Ha & <-) Hmax] [(r' & Hr' & Hid' & Ha' & <-) Hmax'].
  specialize (Hmax _ Hr' Hid' Ha'). specialize (Hmax' _ Hr Hid Ha). lia.
Qed.

(** [lastAlertTimes[id] || 0] after the first pass of [processFleetData]. *)
Lemma lastAlert_known (raw : list record) (id : string) (t : Z) :
  id <> "__proto__" ->
  last_alert_time raw id t ->
  lastAlert_or_0 (first_pass (sort_by_timestamp raw)) id = Some t.
Proof.
  intros Hid Ht.
  pose proof (first_pass_sorted _ (sort_StronglySorted raw) id Hid) as Hfp.
  unfold lastAlert_or_0.
  destruct (first_pass (sort_by_timestamp raw) !! id) as [t'|].
  - apply (proj1 (last_alert_time_sort _ _ _)) in Hfp.
    rewrite (last_alert_time_unique _ _ _ _ Hfp Ht).
    destruct (Z.eqb_spec t 0); congruence.
  - destruct Ht as [(r & Hr & Hid' & Ha & _) _].
    apply (proj2 (sort_In _ _)) in Hr. specialize (Hfp r Hr Hid'). congruence.
Qed.

Lemma lastAlert_absent (raw : list record) (id : string) :
  never_alerted raw id ->
  lastAlert_or_0 (first_pass (sort_by_timestamp raw)) id
  = if inherited id then None else Some 0.
Proof.
  intros Hnever. unfold lastAlert_or_0.
  destruct (String.eqb_spec id "__proto__") as [-> | Hid].
  { now rewrite first_pass_proto. }
  pose proof (first_pass_sorted _ (sort_StronglySorted raw) id Hid) as Hfp.
  destruct (first_pass (sort_by_timestamp raw) !! id) as [t'|]; [|reflexivity].
  destruct Hfp as [(r & Hr & Hid' & Ha & _) _].
  apply (proj1 (sort_In _ _)) in Hr. specialize (Hnever r Hr Hid'). congruence.
Qed.

(** For the vehicle ["__proto__"] the read is always the prototype. *)
Lemma lastAlert_proto (raw : list record) :
  lastAlert_or_0 (first_pass (sort_by_timestamp raw)) "__proto__" = None.
Proof. unfold lastAlert_or_0. now rewrite first_pass_proto. Qed.

End FirstPass.

(** ** The second pass *)

Section SecondPass.
Import JS Dashboard Notions.
Context `{Runtime}.

Lemma map_get_set (id id' : string) (v : vehicle_state)
  (m : list (string * vehicle_state)) :
  map_get id' (map_set id v m)
  = if String.eqb id' id then Some v else map_get id' m.
Proof.
  induction m as [|[k w] rest IH]; simpl; [reflexivity|].
  destruct (String.eqb_spec id k) as [-> | Hne]; simpl.
  - now destruct (String.eqb id' k).
  - rewrite IH. destruct (String.eqb_spec id' k) as [-> | Hne']; [|reflexivity].
    destruct (String.eqb_spec k id); congruence.
Qed.

Lemma map_set_keys (id k : string) (v : vehicle_state)
  (m : list (string * vehicle_state)) :
  In k (List.map fst (map_set id v m)) <-> k = id \/ In k (List.map fst m).
Proof.
  induction m as [|[k' w] rest IH]; simpl; [intuition|].
  destruct (String.eqb_spec id k') as [-> | Hne]; simpl; [intuition|].
  rewrite IH. intuition.
Qed.

Lemma map_set_NoDup (id : string) (v : vehicle_state)
  (m : list (string * vehicle_state)) :
  List.NoDup (List.map fst m) -> List.NoDup (List.map fst (map_set id v m)).
Proof.
  induction m as [|[k w] rest IH]; simpl; intros Hnd.
  - repeat constructor. intros [].
  - inversion Hnd as [|? ? Hk Hrest]; subst.
    destruct (String.eqb_spec id k) as [-> | Hne]; simpl.
    + now constructor.
    + constructor; [|now apply IH].
      rewrite map_set_keys. intros [-> | Hin]; [congruence | contradiction].
Qed.

Lemma map_get_In (id : string) (v : vehicle_state)
  (m : list (string * vehicle_state)) :
  List.NoDup (List.map fst m) -> In (id, v) m -> map_get id m = Some v.
Proof.
  induction m as [|[k w] rest IH]; simpl; intros Hnd Hin; [contradiction|].
  inversion Hnd as [|? ? Hk Hrest]; subst.
  destruct Hin as [E | Hin].
  - injection E as -> ->. now rewrite String.eqb_refl.
  - destruct (String.eqb_spec id k) as [-> | Hne]; [|now apply IH].
    exfalso. apply Hk. change k with (fst (k, v)). now apply in_map.
Qed.

Lemma latch_returned (T : Z) (lastAlertTimes : gmap string Z) (r : record)
  (v : vehicle_state) :
  latch T lastAlertTimes r = Returned v ->
  source v = r
  /\ isDrowsy v
     = isAlertRecord (alert r)
       || match lastAlert_or_0 lastAlertTimes (vehicleId r) with
          | Some t => Z.ltb (T - t) 300
          | None => false
          end
  /\ secondsSinceAlert v
     = match lastAlert_or_0 lastAlertTimes (vehicleId r) with
       | Some t => Some (T - t)
       | None => None
       end
  /\ exists id : string, get (driver r) "id" = Str id.
Proof.
  unfold latch, driverPhone_of.
  destruct (nullish (driver r)); [discriminate|].
  destruct (get (driver r) "id") as [| | | |id|]; try discriminate.
  intros E. injection E as <-. cbn [source isDrowsy secondsSinceAlert].
  unfold isAlertRecord.
  destruct (lastAlert_or_0 lastAlertTimes (vehicleId r)); repeat split;
    now exists id.
Qed.

Lemma last_of_Some (id : string) (l : list record) (r : record) :
  last_of id l = Some r -> In r l /\ vehicleId r = id.
Proof.
  induction l as [|h t IH]; simpl; [discriminate|].
  destruct (last_of id t) as [r'|].
  - intros E. injection E as ->. destruct (IH eq_refl). auto.
  - destruct (String.eqb_spec id (vehicleId h)); [|discriminate].
    intros E. injection E as ->. auto.
Qed.

Lemma last_of_None (id : string) (l : list record) :
  last_of id l = None -> forall r, In r l -> vehicleId r <> id.
Proof.
  induction l as [|h t IH]; simpl; [intros _ r []|].
  destruct (last_of id t) as [r'|]; [discriminate|].
  destruct (String.eqb_spec id (vehicleId h)); [discriminate|].
  intros _ r [<- | Hr]; [congruence | now apply IH].
Qed.

Lemma last_of_latest (id : string) (l : list record) (r : record) :
  StronglySorted by_timestamp l -> last_of id l = Some r ->
  forall r', In r' l -> vehicleId r' = id -> timestamp r' <= timestamp r.
Proof.
  induction 1 as [|h t Hs IH Hall]; simpl; [discriminate|].
  rewrite List.Forall_forall in Hall.
  destruct (last_of id t) as [r0|] eqn:E.
  - intros E' r' [<- | Hr'] Hid; injection E' as ->.
    + apply Hall. now apply last_of_Some in E.
    + now apply IH.
  - destruct (String.eqb_spec id (vehicleId h)); [|discriminate].
    intros E' r' [<- | Hr'] Hid; injection E' as ->; [lia|].
    now apply last_of_None with (r := r') in E.
Qed.

(** What the second pass leaves in [vehicleMap]: for every vehicle of the
    batch, the latched state of its last record. *)
Lemma second_pass_spec (T : Z) (lastAlertTimes : gmap string Z) (l : list record) :
  forall acc vm,
    second_pass T lastAlertTimes l acc = Returned vm ->
    List.NoDup (List.map fst acc) ->
    List.NoDup (List.map fst vm)
    /\ forall id : string,
         match last_of id l with
         | Some r => exists v, latch T lastAlertTimes r = Returned v
                               /\ map_get id vm = Some v
         | None => map_get id vm = map_get id acc
         end.
Proof.
  induction l as [|r rest IH]; simpl; intros acc vm Hrun Hnd.
  - injection Hrun as <-. auto.
  - destruct (latch T lastAlertTimes r) as [v|] eqn:Hl; [|discriminate].
    destruct (IH _ _ Hrun (map_set_NoDup _ v _ Hnd)) as [Hnd' Hspec].
    split; [exact Hnd'|]. intros id. specialize (Hspec id).
    destruct (last_of id rest) as [r'|]; [exact Hspec|].
    rewrite map_get_set in Hspec.
    destruct (String.eqb id (vehicleId r)); [eauto | exact Hspec].
Qed.

Lemma second_pass_latched (T : Z) (lastAlertTimes : gmap string Z) (l : list record) :
  forall acc vm,
    second_pass T lastAlertTimes l acc = Returned vm ->
    forall r, In r l -> exists v, latch T lastAlertTimes r = Returned v.
Proof.
  induction l as [|h rest IH]; simpl; intros acc vm Hrun r Hr; [contradiction|].
  destruct (latch T lastAlertTimes h) as [v|] eqn:Hl; [|discriminate].
  destruct Hr as [<- | Hr]; [eauto | eapply IH; eauto].
Qed.

Lemma second_pass_keys (T : Z) (lastAlertTimes : gmap string Z) (l : list record) :
  forall acc vm,
    second_pass T lastAlertTimes l acc = Returned vm ->
    forall r, In r l -> In (vehicleId r) (List.map fst vm).
Proof.
  assert (Hkeep : forall l acc vm,
             second_pass T lastAlertTimes l acc = Returned vm ->
             forall k, In k (List.map fst acc) -> In k (List.map fst vm)).
  { clear l. induction l as [|h rest IH]; simpl; intros acc vm Hrun k Hk.
    - now injection Hrun as <-.
    - destruct (latch T lastAlertTimes h) as [v|]; [|discriminate].
      eapply IH; [exact Hrun|]. apply map_set_keys. auto. }
  induction l as [|h rest IH]; simpl; intros acc vm Hrun r Hr; [contradiction|].
  destruct (latch T lastAlertTimes h) as [v|] eqn:Hl; [|discriminate].
  destruct Hr as [<- | Hr]; [|eapply IH; eauto].
  eapply Hkeep; [exact Hrun|]. apply map_set_keys. auto.
Qed.

End SecondPass.

(** ** [processFleetData] *)

Section Fleet.
Import JS Dashboard Notions.
Context `{Runtime}.

Lemma cons_nonempty (r : record) (l : list record) : r :: l <> [].
Proof. discriminate. Qed.

(** The result on a non-empty batch, in terms of the two passes. *)
Lemma processFleetData_returned (raw : list record) (f : fleet) :
  raw <> [] -> processFleetData raw = Returned f ->
  exists vm,
    second_pass (last_timestamp (sort_by_timestamp raw))
      (first_pass (sort_by_timestamp raw)) (sort_by_timestamp raw) [] = Returned vm
    /\ uniqueVehicles f = List.map snd vm
    /\ history f = slice_last 30 (List.map history_of (sort_by_timestamp raw))
    /\ exists st, stats f = Some st
         /\ totalVehicles st = length (uniqueVehicles f)
         /\ drowsinessCount st = length (List.filter isDrowsy (uniqueVehicles f))
         /\ totalHistoricalAlerts st
            = length (List.filter (fun r => isAlertSample (alert r))
                        (sort_by_timestamp raw))
         /\ avgSpeed st
            = if (0 <? length (uniqueVehicles f))%nat
              then Str (div_toFixed0
                          (fold_left (fun sum v => sum + speed (source v))
                             (uniqueVehicles f) 0)
                          (Z.of_nat (length (uniqueVehicles f))))
              else Num (Fin (Qmake 0 1)).
Proof.
  intros Hne Hrun. destruct raw as [|r0 rest]; [contradiction|].
  unfold processFleetData in Hrun.
  destruct (second_pass _ _ _ []) as [vm|]; [|discriminate].
  injection Hrun as <-. exists vm. cbn [uniqueVehicles history stats].
  repeat split. eexists. split; [reflexivity|]. repeat split.
Qed.

Lemma processFleetData_empty_vehicles (f : fleet) :
  processFleetData [] = Returned f -> uniqueVehicles f = [].
Proof. intros E. injection E as <-. reflexivity. Qed.

(** Every vehicle state of the result is the latched state of a most
    recent record of its vehicle. *)
Lemma unique_vehicle_state (raw : list record) (f : fleet) (v : vehicle_state) :
  processFleetData raw = Returned f -> In v (uniqueVehicles f) ->
  latest_record raw (source v)
  /\ isDrowsy v
     = isAlertRecord (alert (source v))
       || match lastAlert_or_0 (first_pass (sort_by_timestamp raw))
                  (vehicleId (source v)) with
          | Some t => Z.ltb (last_timestamp (sort_by_timestamp raw) - t) 300
          | None => false
          end
  /\ secondsSinceAlert v
     = match lastAlert_or_0 (first_pass (sort_by_timestamp raw))
               (vehicleId (source v)) with
       | Some t => Some (last_timestamp (sort_by_timestamp raw) - t)
       | None => None
       end.
Proof.
  intros Hrun Hv. destruct raw as [|r0 rest].
  { rewrite (processFleetData_empty_vehicles _ Hrun) in Hv. destruct Hv. }
  destruct (processFleetData_returned (r0 :: rest) f (cons_nonempty r0 rest) Hrun)
    as (vm & Hpass & Huv & _).
  rewrite Huv in Hv. apply in_map_iff in Hv as ([id v'] & <- & Hin).
  destruct (second_pass_spec _ _ _ _ _ Hpass (List.NoDup_nil _)) as [Hnd Hspec].
  specialize (Hspec id). rewrite (map_get_In _ _ _ Hnd Hin) in Hspec.
  destruct (last_of id (sort_by_timestamp (r0 :: rest))) as [r|] eqn:Hlast;
    [|discriminate].
  destruct Hspec as (v0 & Hlatch & E). injection E as <-. cbn [snd].
  destruct (latch_returned _ _ _ _ Hlatch) as (Hsrc & Hdrowsy & Hsecs & _).
  destruct (last_of_Some _ _ _ Hlast) as [Hr Hid].
  rewrite Hsrc. split; [|now split].
  split; [exact (proj1 (sort_In _ _) Hr)|].
  intros r' Hr' Hid'.
  apply (last_of_latest _ _ _ (sort_StronglySorted _) Hlast);
    [exact (proj2 (sort_In _ _) Hr') | congruence].
Qed.

(** Every vehicle of the batch has a state in the result. *)
Lemma vehicle_present (raw : list record) (f : fleet) (r : record) :
  processFleetData raw = Returned f -> In r raw ->
  exists v, In v (uniqueVehicles f) /\ vehicleId (source v) = vehicleId r.
Proof.
  intros Hrun Hr. destruct raw as [|r0 rest]; [destruct Hr|].
  destruct (processFleetData_returned (r0 :: rest) f (cons_nonempty r0 rest) Hrun)
    as (vm & Hpass & Huv & _).
  apply (proj2 (sort_In _ _)) in Hr.
  pose proof (second_pass_keys _ _ _ _ _ Hpass _ Hr) as Hk.
  apply in_map_iff in Hk as ([id v] & Hid & Hin). cbn [fst] in Hid. subst id.
  exists v. split; [rewrite Huv; now apply (in_map snd) in Hin|].
  destruct (second_pass_spec _ _ _ _ _ Hpass (List.NoDup_nil _)) as [Hnd Hspec].
  specialize (Hspec (vehicleId r)). rewrite (map_get_In _ _ _ Hnd Hin) in Hspec.
  destruct (last_of (vehicleId r) _) as [r'|] eqn:Hlast; [|discriminate].
  destruct Hspec as (v0 & Hlatch & E). injection E as <-.
  destruct (latch_returned _ _ _ _ Hlatch) as (-> & _).
  now apply last_of_Some in Hlast.
Qed.

(** One state per vehicle. *)
Lemma unique_vehicles_NoDup (raw : list record) (f : fleet) :
  processFleetData raw = Returned f ->
  List.NoDup (List.map (fun v => vehicleId (source v)) (uniqueVehicles f)).
Proof.
  intros Hrun. destruct raw as [|r0 rest].
  { rewrite (processFleetData_empty_vehicles _ Hrun). constructor. }
  destruct (processFleetData_returned (r0 :: rest) f (cons_nonempty r0 rest) Hrun)
    as (vm & Hpass & Huv & _).
  destruct (second_pass_spec _ _ _ _ _ Hpass (List.NoDup_nil _)) as [Hnd Hspec].
  rewrite Huv, List.map_map.
  erewrite List.map_ext_in; [exact Hnd|].
  intros [id v] Hin. cbn [fst snd].
  specialize (Hspec id). rewrite (map_get_In _ _ _ Hnd Hin) in Hspec.
  destruct (last_of id _) as [r'|] eqn:Hlast; [|discriminate].
  destruct Hspec as (v0 & Hlatch & E). injection E as <-.
  destruct (latch_returned _ _ _ _ Hlatch) as (-> & _).
  now apply last_of_Some in Hlast.
Qed.

(** The aggregation returns only if every record has a driver whose [id]
    is a string. *)
Lemma returned_drivers (raw : list record) (f : fleet) (r : record) :
  processFleetData raw = Returned f -> In r raw ->
  exists id : string, get (driver r) "id" = Str id.
Proof.
  intros Hrun Hr. destruct raw as [|r0 rest]; [destruct Hr|].
  destruct (processFleetData_returned (r0 :: rest) f (cons_nonempty r0 rest) Hrun)
    as (vm & Hpass & _).
  apply (proj2 (sort_In _ _)) in Hr.
  destruct (second_pass_latched _ _ _ _ _ Hpass _ Hr) as (v & Hlatch).
  now destruct (latch_returned _ _ _ _ Hlatch) as (_ & _ & _ & Hid).
Qed.

End Fleet.

(** ** The latch *)

Section Latch.
Import JS Dashboard Notions.
Context `{Runtime}.

Lemma batch_nonempty (raw : list record) (T : Z) : max_timestamp raw T -> raw <> [].
Proof. intros [(r & Hr & _) _] ->. destruct Hr. Qed.

(** For a vehicle with a truthy alert at [tA], the latch compares
    [T - tA] with 300. *)
Lemma latched_after_alert (raw : list record) (f : fleet) (v : vehicle_state)
  (T tA : Z) :
  processFleetData raw = Returned f -> In v (uniqueVehicles f) ->
  vehicleId (source v) <> "__proto__" ->
  max_timestamp raw T -> last_alert_time raw (vehicleId (source v)) tA ->
  isDrowsy v = isAlertRecord (alert (source v)) || Z.ltb (T - tA) 300.
Proof.
  intros Hrun Hv Hid HT HtA.
  destruct (unique_vehicle_state _ _ _ Hrun Hv) as (_ & -> & _).
  rewrite (lastAlert_known _ _ _ Hid HtA).
  now rewrite (max_timestamp_unique _ _ _
                 (last_timestamp_max _ (batch_nonempty _ _ HT)) HT).
Qed.

(** For a vehicle without any truthy alert, the latch compares [T - 0]
    with 300, unless the read of its identifier yields an inherited
    member. *)
Lemma latched_without_alert (raw : list record) (f : fleet) (v : vehicle_state)
  (T : Z) :
  processFleetData raw = Returned f -> In v (uniqueVehicles f) ->
  max_timestamp raw T -> never_alerted raw (vehicleId (source v)) ->
  isDrowsy v = if inherited (vehicleId (source v)) then false else Z.ltb T 300.
Proof.
  intros Hrun Hv HT Hnever.
  destruct (unique_vehicle_state _ _ _ Hrun Hv) as ([Hsrc _] & -> & _).
  rewrite (lastAlert_absent _ _ Hnever), (Hnever _ Hsrc eq_refl).
  rewrite (max_timestamp_unique _ _ _
             (last_timestamp_max _ (batch_nonempty _ _ HT)) HT).
  destruct (inherited (vehicleId (source v))); [reflexivity|].
  now rewrite Z.sub_0_r.
Qed.

(** The vehicle ["__proto__"] is drowsy only while its most recent record
    carries a truthy alert: the latch never holds it. *)
Lemma proto_vehicle_never_latched (raw : list record) (f : fleet)
  (v : vehicle_state) :
  processFleetData raw = Returned f -> In v (uniqueVehicles f) ->
  vehicleId (source v) = "__proto__" ->
  isDrowsy v = isAlertRecord (alert (source v)) /\ secondsSinceAlert v = None.
Proof.
  intros Hrun Hv Hid.
  destruct (unique_vehicle_state _ _ _ Hrun Hv) as (_ & -> & ->).
  rewrite Hid, lastAlert_proto. now rewrite orb_false_r.
Qed.

(** X25: for a vehicle other than ["__proto__"] whose most recent record
    is quiet and whose last truthy alert is at [tA], [isDrowsy] holds
    exactly when [T_max - tA < 300]: true at [tA = T_max - 299], false at
    [tA <= T_max - 300]. *)
Theorem latch_window_boundary (raw : list record) (f : fleet) (v : vehicle_state)
  (T tA : Z) :
  processFleetData raw = Returned f ->
  In v (uniqueVehicles f) ->
  vehicleId (source v) <> "__proto__" ->
  isAlertRecord (alert (source v)) = false ->
  max_timestamp raw T ->
  last_alert_time raw (vehicleId (source v)) tA ->
  latest_record raw (source v)
  /\ (tA = T - 299 -> isDrowsy v = true)
  /\ (tA <= T - 300 -> isDrowsy v = false)
  /\ (isDrowsy v = true <-> T - tA < 300).
Proof.
  intros Hrun Hv Hid Hquiet HT HtA.
  split; [apply (unique_vehicle_state _ _ _ Hrun Hv)|].
  rewrite (latched_after_alert _ _ _ _ _ Hrun Hv Hid HT HtA), Hquiet. cbn [orb].
  repeat split.
  - intros ->. apply Z.ltb_lt. lia.
  - intros Hle. apply Z.ltb_ge. lia.
  - apply Z.ltb_lt.
  - apply Z.ltb_lt.
Qed.

(** C1 (the code departs from it): one quiet sample at timestamp 100 and
    no alert anywhere in the batch, and yet the vehicle is latched: the
    absent alert time counts as time 0, 100 seconds ago. *)
Theorem unalerted_vehicle_latched_early :
  never_alerted batch_early "BUS12"
  /\ exists f v,
       processFleetData batch_early = Returned f
       /\ uniqueVehicles f = [v]
       /\ vehicleId (source v) = "BUS12"
       /\ secondsSinceAlert v = Some 100
       /\ isDrowsy v = true.
Proof.
  split.
  - intros r [<- | []] _. reflexivity.
  - do 2 eexists. split; [reflexivity|]. repeat split.
Qed.

(** Away from the first 300 seconds of the epoch the default is harmless:
    a vehicle without alert is not latched. *)
Lemma unalerted_vehicle_not_latched (raw : list record) (f : fleet)
  (v : vehicle_state) (T : Z) :
  processFleetData raw = Returned f -> In v (uniqueVehicles f) ->
  max_timestamp raw T -> never_alerted raw (vehicleId (source v)) ->
  300 <= T -> isDrowsy v = false.
Proof.
  intros Hrun Hv HT Hnever Hlate.
  rewrite (latched_without_alert _ _ _ _ Hrun Hv HT Hnever).
  destruct (inherited _); [reflexivity|].
  apply Z.ltb_ge. lia.
Qed.

(** C7 (the code departs from it): the vehicle ["__proto__"] raises an
    alert at 1000 and sends a quiet sample at 1299, 299 seconds later; its
    alert time is never recorded, the read yields the prototype,
    [secondsSinceAlert] is [NaN] and the vehicle is not drowsy. *)
Theorem proto_vehicle_not_latched_at_299 :
  max_timestamp batch_proto 1299
  /\ last_alert_time batch_proto "__proto__" (1299 - 299)
  /\ exists f v,
       processFleetData batch_proto = Returned f
       /\ uniqueVehicles f = [v]
       /\ source v = sample "__proto__" 50 (Bool false) 1299
       /\ isAlertRecord (alert (source v)) = false
       /\ secondsSinceAlert v = None
       /\ isDrowsy v = false.
Proof.
  split; [|split].
  - split.
    + exists (sample "__proto__" 50 (Bool false) 1299). simpl. auto.
    + intros r [<- | [<- | []]]; simpl; lia.
  - split.
    + exists (sample "__proto__" 45 (Bool true) 1000). simpl. auto.
    + intros r [<- | [<- | []]] _; simpl; [lia | discriminate].
  - do 2 eexists. split; [reflexivity|]. repeat split.
Qed.

Lemma filter_length_perm (p : record -> bool) (l l' : list record) :
  Permutation l l' -> length (List.filter p l) = length (List.filter p l').
Proof.
  induction 1 as [| x l l' _ IH | x y l | l l' l'' _ IH1 _ IH2]; simpl.
  - reflexivity.
  - destruct (p x); simpl; congruence.
  - destruct (p x), (p y); reflexivity.
  - congruence.
Qed.

(** What [totalHistoricalAlerts] counts: the records whose alert is
    [true] or ["Sleeping"]. *)
Lemma totalHistoricalAlerts_counts (raw : list record) (f : fleet) (st : fleet_stats) :
  raw <> [] -> processFleetData raw = Returned f -> stats f = Some st ->
  totalHistoricalAlerts st
  = length (List.filter (fun r => isAlertSample (alert r)) raw).
Proof.
  intros Hne Hrun Hst.
  destruct (processFleetData_returned _ _ Hne Hrun)
    as (vm & _ & _ & _ & st' & Hst' & _ & _ & Hcount & _).
  rewrite Hst in Hst'. injection Hst' as <-. rewrite Hcount.
  apply filter_length_perm, sort_perm.
Qed.

(** C6 (the code departs from it): a sample whose alert is the string
    ["true"] is a truthy alert for the latch but is not counted in
    [totalHistoricalAlerts]. *)
Theorem true_string_not_counted :
  length (List.filter (fun r => isAlertRecord (alert r)) batch_true_string) = 1%nat
  /\ exists f st,
       processFleetData batch_true_string = Returned f
       /\ stats f = Some st
       /\ totalHistoricalAlerts st = 0%nat
       /\ drowsinessCount st = 1%nat.
Proof.
  split; [reflexivity|].
  do 2 eexists. split; [reflexivity|]. repeat split.
Qed.

End Latch.

Lemma latch_window_boundary_witness :
  Dashboard.processFleetData (H := example_runtime) batch_299
  = Dashboard.Returned fleet_299
  /\ In state_299 (Dashboard.uniqueVehicles fleet_299)
  /\ Dashboard.vehicleId (Dashboard.source state_299) <> "__proto__"
  /\ Dashboard.isAlertRecord (Dashboard.alert (Dashboard.source state_299)) = false
  /\ (1000 = 1299 - 299 -> Dashboard.isDrowsy state_299 = true).
Proof.
  assert (Hrun : Dashboard.processFleetData (H := example_runtime) batch_299
                 = Dashboard.Returned fleet_299) by reflexivity.
  assert (Hin : In state_299 (Dashboard.uniqueVehicles fleet_299))
    by (left; reflexivity).
  assert (Hquiet : Dashboard.isAlertRecord
                     (Dashboard.alert (Dashboard.source state_299)) = false)
    by reflexivity.
  assert (HT : Notions.max_timestamp batch_299 1299).
  { split.
    - exists (sample "BUS12" 50 (JS.Bool false) 1299). simpl. auto.
    - intros r [<- | [<- | []]]; simpl; lia. }
  assert (HtA : Notions.last_alert_time batch_299
                  (Dashboard.vehicleId (Dashboard.source state_299)) 1000).
  { split.
    - exists (sample "BUS12" 45 (JS.Bool true) 1000). simpl. auto.
    - intros r [<- | [<- | []]] _; simpl; [lia | discriminate]. }
  assert (Hid : Dashboard.vehicleId (Dashboard.source state_299) <> "__proto__")
    by discriminate.
  split; [exact Hrun|]. split; [exact Hin|]. split; [exact Hid|].
  split; [exact Hquiet|].
  exact (proj1 (proj2 (latch_window_boundary (H := example_runtime)
                         batch_299 fleet_299 state_299 1299 1000
                         Hrun Hin Hid Hquiet HT HtA))).
Defined.

(** ** Order of the input *)

Section InputOrder.
Import JS Dashboard Notions.
Context `{Runtime}.

Lemma timestamp_injective (raw : list record) :
  List.NoDup (List.map timestamp raw) ->
  forall a b, In a raw -> In b raw -> timestamp a = timestamp b -> a = b.
Proof.
  induction raw as [|h t IH]; simpl; intros Hnd a b Ha Hb E; [destruct Ha|].
  inversion Hnd as [|? ? Hh Ht]; subst.
  destruct Ha as [<- | Ha], Hb as [<- | Hb]; auto.
  - exfalso. apply Hh. rewrite E. now apply in_map.
  - exfalso. apply Hh. rewrite <- E. now apply in_map.
Qed.

(** Two batches with the same records, none sharing a timestamp, sort to
    the same array. *)
Lemma sort_permutation_invariant (raw raw' : list record) :
  List.NoDup (List.map timestamp raw) -> Permutation raw raw' ->
  sort_by_timestamp raw = sort_by_timestamp raw'.
Proof.
  intros Hnd Hperm.
  apply (StronglySorted_unique_strong by_timestamp).
  - intros a b Ha Hb Hab Hba.
    apply list_elem_of_In in Ha. apply (proj1 (sort_In _ _)) in Ha.
    apply list_elem_of_In in Hb. apply (proj1 (sort_In _ _)) in Hb.
    apply (timestamp_injective raw Hnd); [exact Ha | |].
    + eapply Permutation_in; [symmetry; exact Hperm | exact Hb].
    + unfold by_timestamp in *. lia.
  - apply sort_StronglySorted.
  - apply sort_StronglySorted.
  - rewrite !sort_perm. exact Hperm.
Qed.

(** C3 (as amended): when no two records of the batch carry the same
    timestamp, every permutation of the batch gives the same vehicles (in
    the same order), the same statistics and the same history. *)
Theorem order_independent_distinct_timestamps (raw raw' : list record) :
  List.NoDup (List.map timestamp raw) -> Permutation raw raw' ->
  processFleetData raw = processFleetData raw'.
Proof.
  intros Hnd Hperm.
  pose proof (sort_permutation_invariant _ _ Hnd Hperm) as Hsort.
  destruct raw as [|r rest], raw' as [|r' rest'].
  - reflexivity.
  - apply Permutation_nil in Hperm. discriminate.
  - symmetry in Hperm. apply Permutation_nil in Hperm. discriminate.
  - unfold processFleetData. now rewrite Hsort.
Qed.

End InputOrder.

Lemma order_independent_witness :
  List.NoDup (List.map Dashboard.timestamp batch_299)
  /\ Permutation batch_299 (rev batch_299)
  /\ Dashboard.processFleetData (H := example_runtime) batch_299
     = Dashboard.processFleetData (H := example_runtime) (rev batch_299).
Proof.
  assert (Hnd : List.NoDup (List.map Dashboard.timestamp batch_299)).
  { simpl. repeat constructor; simpl; intuition lia. }
  assert (Hperm : Permutation batch_299 (rev batch_299)) by apply perm_swap.
  split; [exact Hnd|]. split; [exact Hperm|].
  exact (order_independent_distinct_timestamps (H := example_runtime)
           batch_299 (rev batch_299) Hnd Hperm).
Defined.

(** C3 (as stated) fails: two samples of one vehicle with the same
    timestamp; swapping them changes the vehicle's state, the average
    speed and the history. *)
Lemma order_matters_on_ties :
  Permutation batch_tie batch_tie_swapped
  /\ Dashboard.processFleetData (H := example_runtime) batch_tie
     <> Dashboard.processFleetData (H := example_runtime) batch_tie_swapped.
Proof.
  split; [apply perm_swap|].
  intros E. vm_compute in E. discriminate E.
Qed.

(** ** Fleet statistics *)

Section Statistics.
Import JS Dashboard Notions.
Context `{Runtime}.

Lemma fold_left_total_speed (vs : list vehicle_state) (z : Z) :
  fold_left (fun sum v => sum + speed (source v)) vs z = z + total_speed vs.
Proof.
  revert z. induction vs as [|v rest IH]; simpl; intros z; [lia|].
  rewrite IH. lia.
Qed.

(** [(2 S + n) / (2 n)] is an integer nearest to [S / n]. *)
Lemma nearest_integer (S n : Z) :
  0 < n ->
  2 * S - n < 2 * n * ((2 * S + n) / (2 * n)) <= 2 * S + n.
Proof.
  intros Hn.
  pose proof (Z.mul_div_le (2 * S + n) (2 * n) ltac:(lia)).
  pose proof (Z.mul_succ_div_gt (2 * S + n) (2 * n) ltac:(lia)).
  lia.
Qed.

Lemma total_speed_nonneg (raw : list record) (vs : list vehicle_state) :
  (forall r, In r raw -> 0 <= speed r) ->
  (forall v, In v vs -> In (source v) raw) ->
  0 <= total_speed vs.
Proof.
  intros Hraw. induction vs as [|v rest IH]; simpl; intros Hsrc; [lia|].
  specialize (Hraw (source v) (Hsrc v (or_introl eq_refl))).
  assert (0 <= total_speed rest) by (apply IH; auto). lia.
Qed.

Lemma decimal_nonempty (n : Z) : decimal n <> "".
Proof.
  unfold decimal. destruct (N.to_uint (Z.to_N n)); discriminate.
Qed.

(** C8 (as amended): on a non-empty batch whose speeds are non-negative
    and whose total over the vehicles stays below 2^52 (where the sum and
    the quotient of doubles round as the exact ones), [avgSpeed] is the
    decimal string of an integer nearest to the mean of the latest speeds
    of the distinct vehicles, and the card shows that string; on the empty
    batch the statistics object is empty and carries no [avgSpeed], and
    the card shows the number 0. *)
Theorem avgSpeed_rounded_mean :
  processFleetData []
  = Returned {| stats := None; uniqueVehicles := []; history := [] |}
  /\
  Controls.shown_avgSpeed {| stats := None; uniqueVehicles := []; history := [] |}
  = Num (Fin (Qmake 0 1))
  /\
  forall (raw : list record) (f : fleet),
    raw <> [] ->
    processFleetData raw = Returned f ->
    (forall r, In r raw -> 0 <= speed r) ->
    total_speed (uniqueVehicles f) < 4503599627370496 ->
    List.NoDup (List.map (fun v => vehicleId (source v)) (uniqueVehicles f))
    /\ (forall r, In r raw ->
          exists v, In v (uniqueVehicles f) /\ vehicleId (source v) = vehicleId r)
    /\ (forall v, In v (uniqueVehicles f) -> latest_record raw (source v))
    /\ exists (st : fleet_stats) (k : Z),
         stats f = Some st
         /\ avgSpeed st = Str (decimal k)
         /\ Controls.shown_avgSpeed f = Str (decimal k)
         /\ 2 * total_speed (uniqueVehicles f) - Z.of_nat (length (uniqueVehicles f))
            < 2 * Z.of_nat (length (uniqueVehicles f)) * k
            <= 2 * total_speed (uniqueVehicles f) + Z.of_nat (length (uniqueVehicles f)).
Proof.
  split; [reflexivity|]. split; [reflexivity|].
  intros raw f Hne Hrun Hspeed Hexact.
  split; [exact (unique_vehicles_NoDup _ _ Hrun)|].
  split; [intros r Hr; exact (vehicle_present _ _ _ Hrun Hr)|].
  assert (Hlatest : forall v, In v (uniqueVehicles f) -> latest_record raw (source v))
    by (intros v Hv; apply (unique_vehicle_state _ _ _ Hrun Hv)).
  split; [exact Hlatest|].
  destruct (processFleetData_returned _ _ Hne Hrun)
    as (vm & _ & _ & _ & st & Hst & _ & _ & _ & Havg).
  assert (Hpos : (0 < length (uniqueVehicles f))%nat).
  { destruct raw as [|r0 rest]; [contradiction|].
    destruct (vehicle_present _ _ r0 Hrun (or_introl eq_refl)) as (v & Hv & _).
    destruct (uniqueVehicles f); [destruct Hv | simpl; lia]. }
  assert (Hsum : 0 <= total_speed (uniqueVehicles f)).
  { apply (total_speed_nonneg raw); [exact Hspeed|].
    intros v Hv. apply (Hlatest v Hv). }
  exists st. eexists. split; [exact Hst|].
  unfold Controls.shown_avgSpeed. rewrite Hst.
  rewrite Havg, (proj2 (Nat.ltb_lt _ _) Hpos), fold_left_total_speed.
  unfold div_toFixed0. rewrite Z.add_0_l, (proj2 (Z.ltb_ge _ _) Hsum).
  split; [reflexivity|]. split.
  - cbn [truthy].
    destruct (String.eqb_spec
                (decimal ((2 * total_speed (uniqueVehicles f)
                           + Z.of_nat (length (uniqueVehicles f)))
                          / (2 * Z.of_nat (length (uniqueVehicles f))))) "")
      as [E | _]; [|reflexivity].
    now apply decimal_nonempty in E.
  - apply nearest_integer. lia.
Qed.

End Statistics.

Lemma avgSpeed_rounded_mean_witness :
  batch_three <> []
  /\ Dashboard.processFleetData (H := example_runtime) batch_three
     = Dashboard.Returned fleet_three
  /\ Notions.total_speed (Dashboard.uniqueVehicles fleet_three) < 4503599627370496
  /\ exists (st : Dashboard.fleet_stats) (k : Z),
       Dashboard.stats fleet_three = Some st
       /\ Dashboard.avgSpeed st = JS.Str (JS.decimal k)
       /\ Controls.shown_avgSpeed fleet_three = JS.Str (JS.decimal k)
       /\ 2 * Notions.total_speed (Dashboard.uniqueVehicles fleet_three)
            - Z.of_nat (length (Dashboard.uniqueVehicles fleet_three))
          < 2 * Z.of_nat (length (Dashboard.uniqueVehicles fleet_three)) * k
          <= 2 * Notions.total_speed (Dashboard.uniqueVehicles fleet_three)
             + Z.of_nat (length (Dashboard.uniqueVehicles fleet_three)).
Proof.
  assert (Hne : batch_three <> []) by discriminate.
  assert (Hrun : Dashboard.processFleetData (H := example_runtime) batch_three
                 = Dashboard.Returned fleet_three) by reflexivity.
  assert (Hspeed : forall r, In r batch_three -> 0 <= Dashboard.speed r).
  { intros r [<- | [<- | [<- | []]]]; simpl; lia. }
  assert (Hexact : Notions.total_speed (Dashboard.uniqueVehicles fleet_three)
                   < 4503599627370496) by (vm_compute; reflexivity).
  split; [exact Hne|]. split; [exact Hrun|]. split; [exact Hexact|].
  exact (proj2 (proj2 (proj2
           (proj2 (proj2 (avgSpeed_rounded_mean (H := example_runtime)))
              batch_three fleet_three Hne Hrun Hspeed Hexact)))).
Defined.

(** The scenario of the specification: speeds 45, 0 and 82 give ["42"]. *)
Example avgSpeed_45_0_82 :
  exists st, Dashboard.stats fleet_three = Some st
             /\ Dashboard.totalVehicles st = 3%nat
             /\ Dashboard.avgSpeed st = JS.Str "42".
Proof. eexists. repeat split. Qed.

(** C8 (as stated) fails on the empty batch: the result carries the empty
    statistics object, so there is no [avgSpeed] equal to 0 in it. *)
Lemma no_avgSpeed_on_empty_batch :
  Dashboard.processFleetData (H := example_runtime) []
  = Dashboard.Returned {| Dashboard.stats := None;
                          Dashboard.uniqueVehicles := [];
                          Dashboard.history := [] |}
  /\ ~ exists st,
         Dashboard.stats
           (returned_or_empty (Dashboard.processFleetData (H := example_runtime) []))
         = Some st
         /\ Dashboard.avgSpeed st = JS.Num (JS.Fin (Qmake 0 1)).
Proof.
  split; [reflexivity|]. intros (st & Hst & _). discriminate Hst.
Qed.

(** ** Records without driver *)

Section AbsentDriver.
Import JS Store Dashboard.
Context `{Runtime}.

(** A record whose driver has no string [id] makes the whole aggregation
    throw. *)
Lemma aggregation_throws_without_driver_id (raw : list record) (r : record) :
  In r raw -> (forall id : string, get (driver r) "id" <> Str id) ->
  processFleetData raw = TypeError.
Proof.
  intros Hr Hno. destruct (processFleetData raw) as [f|] eqn:Hrun; [|reflexivity].
  destruct (returned_drivers _ _ _ Hrun Hr) as (id & Hid).
  now destruct (Hno id).
Qed.

(** C4 (the code departs from it): a payload without [driver] is accepted
    by the ingestion handler with a warning only, and the aggregation of
    the stored record throws instead of producing a vehicle state. *)
Theorem absent_driver_crashes_aggregation (now : Z) :
  status (Data.res (Data.handler_post now empty_db payload_without_driver)) = 201
  /\ Data.warned (Data.handler_post now empty_db payload_without_driver) = true
  /\ exists (d : val) (r : record),
       docs (Data.store (Data.handler_post now empty_db payload_without_driver)) = [d]
       /\ record_of_doc d = Some r
       /\ driver r = Undefined
       /\ processFleetData [r] = TypeError.
Proof.
  split; [reflexivity|]. split; [reflexivity|].
  do 2 eexists. split; [reflexivity|]. split; [reflexivity|].
  split; reflexivity.
Qed.

End AbsentDriver.

(* ===================================================================== *)
(** * Part III: further properties of the code                            *)
(* ===================================================================== *)

(** ** [processFleetData]: when it returns, and what it returns *)

Section FleetFurther.
Import JS Dashboard Notions.
Context `{Runtime}.

Lemma latch_returns (T : Z) (lastAlertTimes : gmap string Z) (r : record)
  (id : string) :
  get (driver r) "id" = Str id ->
  exists v, latch T lastAlertTimes r = Returned v
            /\ driverPhone v = "+880 17" ++ slice0 8 (padEnd0 8 (strip_non_digits id)).
Proof.
  intros Hid. unfold latch, driverPhone_of.
  destruct (driver r) as [| | | | |props] eqn:Hd; try discriminate Hid.
  cbn [nullish]. rewrite Hid. eexists. split; reflexivity.
Qed.

Lemma second_pass_returns (T : Z) (lastAlertTimes : gmap string Z)
  (l : list record) :
  (forall r, In r l -> exists id : string, get (driver r) "id" = Str id) ->
  forall acc, exists vm, second_pass T lastAlertTimes l acc = Returned vm.
Proof.
  induction l as [|r rest IH]; simpl; intros Hall acc; [eauto|].
  destruct (Hall r (or_introl eq_refl)) as (id & Hid).
  destruct (latch_returns T lastAlertTimes r id Hid) as (v & -> & _).
  apply IH. auto.
Qed.

(** X1: the aggregation returns exactly when every record of the batch
    has a driver whose [id] is a string; otherwise it throws. *)
Theorem processFleetData_returns_iff (raw : list record) :
  (exists f, processFleetData raw = Returned f)
  <-> forall r, In r raw -> exists id : string, get (driver r) "id" = Str id.
Proof.
  split.
  - intros (f & Hrun) r Hr. exact (returned_drivers _ _ _ Hrun Hr).
  - intros Hall. destruct raw as [|r0 rest]; [simpl; eauto|].
    destruct (second_pass_returns
                (last_timestamp (sort_by_timestamp (r0 :: rest)))
                (first_pass (sort_by_timestamp (r0 :: rest)))
                (sort_by_timestamp (r0 :: rest))) with (acc := @nil (string * vehicle_state))
      as (vm & Hvm).
    { intros r Hr. apply Hall. exact (proj1 (sort_In _ _) Hr). }
    unfold processFleetData. rewrite Hvm. eauto.
Qed.

(** X2: latching never suppresses an active alert: a vehicle whose most
    recent record carries a truthy alert is drowsy, however old that
    record is with respect to the rest of the batch. *)
Theorem active_alert_is_drowsy (raw : list record) (f : fleet) (v : vehicle_state) :
  processFleetData raw = Returned f ->
  In v (uniqueVehicles f) ->
  isAlertRecord (alert (source v)) = true ->
  latest_record raw (source v) /\ isDrowsy v = true.
Proof.
  intros Hrun Hv Ha.
  destruct (unique_vehicle_state _ _ _ Hrun Hv) as (Hlatest & -> & _).
  now rewrite Ha.
Qed.

(** X3: [totalVehicles] is the number of distinct vehicle identifiers of
    the batch, and [drowsinessCount] never exceeds it. *)
Theorem totalVehicles_counts_distinct (raw : list record) (f : fleet)
  (st : fleet_stats) :
  processFleetData raw = Returned f -> stats f = Some st ->
  totalVehicles st = length (nodup string_dec (List.map vehicleId raw))
  /\ (drowsinessCount st <= totalVehicles st)%nat.
Proof.
  intros Hrun Hst.
  destruct raw as [|r0 rest]; [injection Hrun as <-; discriminate Hst|].
  destruct (processFleetData_returned _ _ (cons_nonempty r0 rest) Hrun)
    as (vm & _ & _ & _ & st' & Hst' & Htotal & Hdrowsy & _).
  rewrite Hst in Hst'. injection Hst' as <-. split.
  - rewrite Htotal.
    rewrite <- (List.length_map (fun v => vehicleId (source v)) (uniqueVehicles f)).
    apply Permutation_length, Permutation.NoDup_Permutation.
    + exact (unique_vehicles_NoDup _ _ Hrun).
    + apply List.NoDup_nodup.
    + intros id. rewrite List.nodup_In, !in_map_iff. split.
      * intros (v & <- & Hv).
        destruct (unique_vehicle_state _ _ _ Hrun Hv) as ([Hsrc _] & _).
        eauto.
      * intros (r & <- & Hr).
        destruct (vehicle_present _ _ _ Hrun Hr) as (v & Hv & Hid). eauto.
  - rewrite Hdrowsy, Htotal. apply List.filter_length_le.
Qed.

Lemma slice_last_map {A B : Type} (g : A -> B) (n : nat) (l : list A) :
  slice_last n (List.map g l) = List.map g (slice_last n l).
Proof. unfold slice_last. now rewrite List.length_map, List.skipn_map. Qed.

Lemma StronglySorted_split (l1 l2 : list record) :
  StronglySorted by_timestamp (l1 ++ l2) ->
  StronglySorted by_timestamp l2
  /\ forall a b, In a l1 -> In b l2 -> timestamp a <= timestamp b.
Proof.
  induction l1 as [|h t IH]; simpl; intros Hs.
  - split; [exact Hs | intros a b []].
  - inversion Hs as [|? ? Ht Hall]; subst.
    destruct (IH Ht) as [Hl2 Hle]. split; [exact Hl2|].
    intros a b [<- | Ha] Hb; [|now apply Hle].
    rewrite List.Forall_forall in Hall. apply Hall.
    rewrite in_app_iff. auto.
Qed.

(** X4: the chart history shows the 30 most recent samples of the batch
    (all of them when there are fewer), oldest first. *)
Theorem history_is_recent_suffix (raw : list record) (f : fleet) :
  processFleetData raw = Returned f ->
  exists older recent : list record,
    Permutation raw (older ++ recent)
    /\ length recent = Nat.min 30 (length raw)
    /\ history f = List.map history_of recent
    /\ StronglySorted by_timestamp recent
    /\ forall a b, In a older -> In b recent -> timestamp a <= timestamp b.
Proof.
  intros Hrun. destruct raw as [|r0 rest].
  { injection Hrun as <-. exists [], []. repeat split; try constructor.
    intros a b []. }
  destruct (processFleetData_returned _ _ (cons_nonempty r0 rest) Hrun)
    as (vm & _ & _ & Hhist & _).
  set (sorted := sort_by_timestamp (r0 :: rest)) in *.
  exists (firstn (length sorted - 30) sorted), (skipn (length sorted - 30) sorted).
  pose proof (sort_StronglySorted (r0 :: rest)) as Hs. fold sorted in Hs.
  rewrite <- (List.firstn_skipn (length sorted - 30) sorted) in Hs.
  destruct (StronglySorted_split _ _ Hs) as [Hrecent Hle].
  assert (Hlen : length sorted = length (r0 :: rest))
    by (apply Permutation_length, sort_perm).
  split; [rewrite List.firstn_skipn; symmetry; apply sort_perm|].
  split; [rewrite List.length_skipn, Hlen; lia|].
  split; [rewrite Hhist; apply slice_last_map|].
  split; assumption.
Qed.

End FleetFurther.

Lemma active_alert_is_drowsy_witness :
  Dashboard.processFleetData (H := example_runtime) batch_true_string
  = Dashboard.Returned
      (returned_or_empty
         (Dashboard.processFleetData (H := example_runtime) batch_true_string))
  /\ Dashboard.isDrowsy
       {| Dashboard.source := sample "BUS12" 45 (JS.Str "true") 1700000000;
          Dashboard.formattedTime := "1700000000";
          Dashboard.isDrowsy := true;
          Dashboard.secondsSinceAlert := Some 0;
          Dashboard.driverPhone := "+880 1717000000" |} = true.
Proof.
  split; [reflexivity|].
  refine (proj2 (active_alert_is_drowsy (H := example_runtime) batch_true_string
                   (returned_or_empty
                      (Dashboard.processFleetData (H := example_runtime)
                         batch_true_string))
                   _ _ _ _)).
  - reflexivity.
  - left. reflexivity.
  - reflexivity.
Defined.

Lemma totalVehicles_counts_distinct_witness :
  Dashboard.processFleetData (H := example_runtime) batch_three
  = Dashboard.Returned fleet_three
  /\ exists st, Dashboard.stats fleet_three = Some st
                /\ Dashboard.totalVehicles st = 3%nat.
Proof.
  split; [reflexivity|].
  eexists. split; [reflexivity|].
  exact (proj1 (totalVehicles_counts_distinct (H := example_runtime)
                  batch_three fleet_three _ eq_refl eq_refl)).
Defined.

Lemma history_is_recent_suffix_witness :
  Dashboard.processFleetData (H := example_runtime) batch_three
  = Dashboard.Returned fleet_three
  /\ exists older recent : list Dashboard.record,
       Permutation batch_three (older ++ recent)
       /\ length recent = Nat.min 30 (length batch_three)
       /\ Dashboard.history fleet_three
          = List.map (Dashboard.history_of (H := example_runtime)) recent
       /\ StronglySorted Notions.by_timestamp recent
       /\ forall a b, In a older -> In b recent ->
                      Dashboard.timestamp a <= Dashboard.timestamp b.
Proof.
  split; [reflexivity|].
  exact (history_is_recent_suffix (H := example_runtime)
           batch_three fleet_three eq_refl).
Defined.

(** ** The driver's phone number and the alert age *)

Section Cards.
Import JS Dashboard Notions Controls.
Context `{Runtime}.

Lemma chars_append (s1 s2 : string) :
  list_ascii_of_string (s1 ++ s2)
  = (list_ascii_of_string s1 ++ list_ascii_of_string s2)%list.
Proof. induction s1 as [|c s1 IH]; simpl; [reflexivity | now rewrite IH]. Qed.

Lemma chars_length (s : string) :
  String.length s = length (list_ascii_of_string s).
Proof. induction s as [|c s IH]; simpl; [reflexivity | now rewrite IH]. Qed.

Lemma firstn_incl_chars (n : nat) (l : list ascii) (c : ascii) :
  In c (firstn n l) -> In c l.
Proof.
  revert l. induction n as [|n IH]; intros [|h t]; simpl; try tauto.
  intros [-> | Hc]; auto.
Qed.

(** The eight characters after the prefix: the first digits of the
    identifier, completed with zeros. *)
Lemma phone_digits (id : string) :
  list_ascii_of_string (slice0 8 (padEnd0 8 (strip_non_digits id)))
  = (firstn 8 (List.filter is_digit (list_ascii_of_string id))
     ++ repeat "0"%char (8 - length (List.filter is_digit (list_ascii_of_string id))))%list.
Proof.
  unfold slice0, padEnd0, strip_non_digits.
  rewrite list_ascii_of_string_of_list_ascii, chars_append, chars_length.
  rewrite !list_ascii_of_string_of_list_ascii.
  set (digits := List.filter is_digit (list_ascii_of_string id)).
  rewrite List.firstn_app. f_equal.
  apply List.firstn_all2. rewrite List.repeat_length. lia.
Qed.

Lemma unique_vehicle_latch (raw : list record) (f : fleet) (v : vehicle_state) :
  processFleetData raw = Returned f -> In v (uniqueVehicles f) ->
  latch (last_timestamp (sort_by_timestamp raw))
    (first_pass (sort_by_timestamp raw)) (source v) = Returned v.
Proof.
  intros Hrun Hv. destruct raw as [|r0 rest].
  { rewrite (processFleetData_empty_vehicles _ Hrun) in Hv. destruct Hv. }
  destruct (processFleetData_returned _ _ (cons_nonempty r0 rest) Hrun)
    as (vm & Hpass & Huv & _).
  rewrite Huv in Hv. apply in_map_iff in Hv as ([id v'] & <- & Hin).
  destruct (second_pass_spec _ _ _ _ _ Hpass (List.NoDup_nil _)) as [Hnd Hspec].
  specialize (Hspec id). rewrite (map_get_In _ _ _ Hnd Hin) in Hspec.
  destruct (last_of id _) as [r|]; [|discriminate].
  destruct Hspec as (v0 & Hlatch & E). injection E as <-. cbn [snd].
  now destruct (latch_returned _ _ _ _ Hlatch) as (-> & _).
Qed.

(** X5: every vehicle state carries a phone number made of the prefix
    ["+880 17"] and exactly eight digits: the first digits of the driver's
    identifier, completed with zeros. *)
Theorem driverPhone_format (raw : list record) (f : fleet) (v : vehicle_state) :
  processFleetData raw = Returned f ->
  In v (uniqueVehicles f) ->
  exists (id d : string),
    get (driver (source v)) "id" = Str id
    /\ driverPhone v = "+880 17" ++ d
    /\ String.length d = 8%nat
    /\ (forall c, In c (list_ascii_of_string d) -> is_digit c = true)
    /\ list_ascii_of_string d
       = (firstn 8 (List.filter is_digit (list_ascii_of_string id))
          ++ repeat "0"%char
               (8 - length (List.filter is_digit (list_ascii_of_string id))))%list.
Proof.
  intros Hrun Hv.
  pose proof (unique_vehicle_latch _ _ _ Hrun Hv) as Hlatch.
  destruct (latch_returned _ _ _ _ Hlatch) as (_ & _ & _ & id & Hid).
  destruct (latch_returns (last_timestamp (sort_by_timestamp raw))
              (first_pass (sort_by_timestamp raw)) _ _ Hid) as (v' & Hv' & Hphone).
  rewrite Hlatch in Hv'. injection Hv' as <-.
  exists id, (slice0 8 (padEnd0 8 (strip_non_digits id))).
  split; [exact Hid|]. split; [exact Hphone|].
  pose proof (phone_digits id) as Hd.
  split; [|split; [|exact Hd]].
  - rewrite chars_length, Hd, List.length_app, List.length_firstn, List.repeat_length.
    lia.
  - intros c Hc. rewrite Hd, in_app_iff in Hc. destruct Hc as [Hc | Hc].
    + apply firstn_incl_chars in Hc. now apply List.filter_In in Hc.
    + apply List.repeat_spec in Hc. now subst c.
Qed.

(** X6: for a vehicle other than ["__proto__"] that raised an alert, in
    a batch whose timestamps lie between 0 and 2^53 (where the
    subtraction of doubles is exact), [secondsSinceAlert] is the
    non-negative distance from its last alert to the newest record of the
    batch; when the vehicle is drowsy through the latch alone, the card
    shows an age of at most 5 minutes. *)
Theorem alert_age_bounds (raw : list record) (f : fleet) (v : vehicle_state)
  (T tA : Z) :
  processFleetData raw = Returned f ->
  In v (uniqueVehicles f) ->
  vehicleId (source v) <> "__proto__" ->
  (forall r, In r raw -> 0 <= timestamp r <= 9007199254740992) ->
  max_timestamp raw T ->
  last_alert_time raw (vehicleId (source v)) tA ->
  secondsSinceAlert v = Some (T - tA)
  /\ 0 <= T - tA <= 9007199254740992
  /\ (isAlertRecord (alert (source v)) = false -> isDrowsy v = true ->
      exists m, minutes_ago v = Some m /\ 0 <= m <= 5).
Proof.
  intros Hrun Hv Hid Hrange HT HtA.
  destruct (unique_vehicle_state _ _ _ Hrun Hv) as (_ & _ & Hsecs).
  rewrite (lastAlert_known _ _ _ Hid HtA) in Hsecs.
  rewrite (max_timestamp_unique _ _ _
             (last_timestamp_max _ (batch_nonempty _ _ HT)) HT) in Hsecs.
  assert (Hle : tA <= T).
  { destruct HtA as [(r & Hr & _ & _ & <-) _]. now apply HT. }
  assert (HtA0 : 0 <= tA).
  { destruct HtA as [(r & Hr & _ & _ & <-) _]. now apply Hrange. }
  assert (HT53 : T <= 9007199254740992).
  { destruct HT as [(r & Hr & <-) _]. now apply Hrange. }
  split; [exact Hsecs|]. split; [lia|].
  intros Hquiet Hdrowsy.
  rewrite (latched_after_alert _ _ _ _ _ Hrun Hv Hid HT HtA), Hquiet in Hdrowsy.
  apply Z.ltb_lt in Hdrowsy. unfold minutes_ago. rewrite Hsecs.
  eexists. split; [reflexivity|]. split.
  - apply Z.div_pos; lia.
  - apply Z.lt_succ_r. apply Z.div_lt_upper_bound; lia.
Qed.

End Cards.

Lemma driverPhone_format_witness :
  Dashboard.processFleetData (H := example_runtime) batch_299
  = Dashboard.Returned fleet_299
  /\ In state_299 (Dashboard.uniqueVehicles fleet_299)
  /\ exists id d : string,
       JS.get (Dashboard.driver (Dashboard.source state_299)) "id" = JS.Str id
       /\ Dashboard.driverPhone state_299 = "+880 17" ++ d
       /\ String.length d = 8%nat.
Proof.
  assert (Hin : In state_299 (Dashboard.uniqueVehicles fleet_299))
    by (left; reflexivity).
  split; [reflexivity|]. split; [exact Hin|].
  destruct (driverPhone_format (H := example_runtime)
              batch_299 fleet_299 state_299 eq_refl Hin)
    as (id & d & Hid & Hphone & Hlen & _).
  exists id, d. auto.
Defined.

Lemma alert_age_bounds_witness :
  Dashboard.processFleetData (H := example_runtime) batch_299
  = Dashboard.Returned fleet_299
  /\ In state_299 (Dashboard.uniqueVehicles fleet_299)
  /\ Dashboard.vehicleId (Dashboard.source state_299) <> "__proto__"
  /\ Dashboard.secondsSinceAlert state_299 = Some (1299 - 1000)
  /\ exists m, Controls.minutes_ago state_299 = Some m /\ 0 <= m <= 5.
Proof.
  assert (Hin : In state_299 (Dashboard.uniqueVehicles fleet_299))
    by (left; reflexivity).
  assert (Hid : Dashboard.vehicleId (Dashboard.source state_299) <> "__proto__")
    by discriminate.
  assert (Hrange : forall r, In r batch_299 ->
                     0 <= Dashboard.timestamp r <= 9007199254740992).
  { intros r [<- | [<- | []]]; simpl; lia. }
  assert (HT : Notions.max_timestamp batch_299 1299).
  { split.
    - exists (sample "BUS12" 50 (JS.Bool false) 1299). simpl. auto.
    - intros r [<- | [<- | []]]; simpl; lia. }
  assert (HtA : Notions.last_alert_time batch_299
                  (Dashboard.vehicleId (Dashboard.source state_299)) 1000).
  { split.
    - exists (sample "BUS12" 45 (JS.Bool true) 1000). simpl. auto.
    - intros r [<- | [<- | []]] _; simpl; [lia | discriminate]. }
  split; [reflexivity|]. split; [exact Hin|]. split; [exact Hid|].
  destruct (alert_age_bounds (H := example_runtime)
              batch_299 fleet_299 state_299 1299 1000 eq_refl Hin Hid Hrange HT HtA)
    as (Hsecs & _ & Hmin).
  split; [exact Hsecs|]. apply Hmin; reflexivity.
Defined.

(** ** The acknowledgment state over time *)

Section AcknowledgmentFurther.
Import Dashboard Controls.

(** X7: acknowledging again replaces the expiry (it does not stack), and
    acknowledging one vehicle leaves every other entry as it was. *)
Theorem acknowledge_refreshes (t1 t2 : Z) (state : gmap string Z) (id id' : string) :
  id <> id' ->
  reducer t2 (reducer t1 state (ACKNOWLEDGE id)) (ACKNOWLEDGE id)
  = reducer t2 state (ACKNOWLEDGE id)
  /\ reducer t1 state (ACKNOWLEDGE id) !! id' = state !! id'
  /\ acknowledged (reducer t1 state (ACKNOWLEDGE id)) id' = acknowledged state id'.
Proof.
  intros Hne. simpl. split; [apply insert_insert_eq|].
  unfold acknowledged. now rewrite lookup_insert_ne.
Qed.

Lemma acknowledge_refreshes_witness :
  "BUS12" <> "VAN3"
  /\ reducer 9000 (reducer 1000 ∅ (ACKNOWLEDGE "BUS12")) (ACKNOWLEDGE "BUS12")
     = reducer 9000 ∅ (ACKNOWLEDGE "BUS12").
Proof.
  assert (Hne : "BUS12" <> "VAN3") by discriminate.
  split; [exact Hne|].
  exact (proj1 (acknowledge_refreshes 1000 9000 ∅ "BUS12" "VAN3" Hne)).
Defined.

(** X8: two sweeps amount to the later one: [CLEANUP] is idempotent and
    the order of two sweeps does not matter. *)
Theorem cleanup_twice (c1 c2 : Z) (state : gmap string Z) :
  reducer c2 (reducer c1 state CLEANUP) CLEANUP
  = reducer (Z.max c1 c2) state CLEANUP.
Proof.
  apply map_eq. intros id. rewrite !cleanup_lookup.
  destruct (state !! id) as [expiry|]; [|reflexivity].
  destruct (Z.ltb_spec c1 expiry), (Z.ltb_spec c2 expiry),
    (Z.ltb_spec (Z.max c1 c2) expiry); try reflexivity; lia.
Qed.

(** X9: right after a sweep the read is accurate for every vehicle whose
    identifier is not a name inherited from [Object.prototype]: it reads
    as acknowledged exactly when it has an entry whose expiry is after
    the time of the sweep.  An inherited name without such an entry reads
    as acknowledged all the same. *)
Theorem read_after_cleanup (c : Z) (state : gmap string Z) (id : string) :
  (JS.inherited id = false ->
   (acknowledged (reducer c state CLEANUP) id = true
    <-> exists expiry, state !! id = Some expiry /\ c < expiry /\ expiry <> 0))
  /\ (JS.inherited id = true ->
      (forall expiry, state !! id = Some expiry -> expiry <= c) ->
      acknowledged (reducer c state CLEANUP) id = true).
Proof.
  unfold acknowledged. rewrite cleanup_lookup. split.
  - intros Hord. destruct (state !! id) as [expiry|].
    + destruct (Z.ltb_spec c expiry) as [Hlt | Hge].
      * destruct (Z.eqb_spec expiry 0) as [E0 | Hnz]; cbn.
        -- split; [discriminate|].
           intros (e & E & _ & He). injection E as <-. contradiction.
        -- split; [eauto | reflexivity].
      * rewrite Hord. split; [discriminate|].
        intros (e & E & Hc & _). injection E as <-. lia.
    + rewrite Hord. split; [discriminate | intros (e & E & _); discriminate].
  - intros Hinh Hexp. destruct (state !! id) as [expiry|]; [|exact Hinh].
    specialize (Hexp expiry eq_refl).
    destruct (Z.ltb_spec c expiry); [lia | exact Hinh].
Qed.

Lemma read_after_cleanup_witness :
  JS.inherited "BUS12" = false
  /\ (acknowledged (reducer 5000 (reducer 1000 ∅ (ACKNOWLEDGE "BUS12")) CLEANUP)
         "BUS12" = true
      <-> exists expiry,
            reducer 1000 ∅ (ACKNOWLEDGE "BUS12") !! "BUS12" = Some expiry
            /\ 5000 < expiry /\ expiry <> 0).
Proof.
  split; [reflexivity|].
  exact (proj1 (read_after_cleanup 5000 (reducer 1000 ∅ (ACKNOWLEDGE "BUS12"))
                  "BUS12") eq_refl).
Defined.

Lemma dispatch_all_snoc (state : gmap string Z) (actions : list (Z * action))
  (a : Z * action) :
  dispatch_all state (actions ++ [a])
  = reducer (fst a) (dispatch_all state actions) (snd a).
Proof. unfold dispatch_all. now rewrite fold_left_app. Qed.

(** X10: starting from the empty state, whatever is dispatched, an entry
    exists only for a vehicle that was acknowledged, and its expiry is
    300000 ms after one of its acknowledgments. *)
Theorem entries_come_from_acknowledgments (actions : list (Z * action))
  (id : string) (expiry : Z) :
  dispatch_all ∅ actions !! id = Some expiry ->
  exists t, In (t, ACKNOWLEDGE id) actions /\ expiry = t + 300000.
Proof.
  revert expiry. induction actions as [|[t a] actions IH] using rev_ind;
    intros expiry.
  - unfold dispatch_all. simpl. now rewrite lookup_empty.
  - rewrite dispatch_all_snoc. cbn [fst snd]. destruct a as [id0| |]; simpl.
    + destruct (decide (id0 = id)) as [-> | Hne].
      * rewrite lookup_insert_eq. intros E. injection E as <-.
        exists t. rewrite in_app_iff. simpl. split; [auto | lia].
      * rewrite lookup_insert_ne by exact Hne. intros E.
        destruct (IH _ E) as (t0 & Hin & ->). exists t0.
        rewrite in_app_iff. auto.
    + intros E. apply map_lookup_filter_Some in E as [E _].
      destruct (IH _ E) as (t0 & Hin & ->). exists t0.
      rewrite in_app_iff. auto.
    + intros E. destruct (IH _ E) as (t0 & Hin & ->). exists t0.
      rewrite in_app_iff. auto.
Qed.

Lemma entries_come_from_acknowledgments_witness :
  dispatch_all ∅ [(1000, ACKNOWLEDGE "BUS12"); (5000, CLEANUP)] !! "BUS12"
  = Some 301000
  /\ exists t, In (t, ACKNOWLEDGE "BUS12")
                 [(1000, ACKNOWLEDGE "BUS12"); (5000, CLEANUP)]
               /\ 301000 = t + 300000.
Proof.
  assert (E : dispatch_all ∅ [(1000, ACKNOWLEDGE "BUS12"); (5000, CLEANUP)]
              !! "BUS12" = Some 301000) by (vm_compute; reflexivity).
  split; [exact E|].
  exact (entries_come_from_acknowledgments _ "BUS12" 301000 E).
Defined.

(** X11: the ACK button is offered exactly on the cards showing DROWSY;
    once the operator acknowledges a drowsy vehicle its card shows
    ACKNOWLEDGED and offers CONTACT, until the first sweep at or after
    the expiry brings DROWSY back; for a vehicle whose identifier is a
    name inherited from [Object.prototype] the card stays ACKNOWLEDGED. *)
Theorem card_follows_acknowledgment (t : Z) (state : gmap string Z)
  (v : vehicle_state) :
  0 <= t ->
  isDrowsy v = true ->
  (forall ack, ack_button ack v = true <-> badge_of ack v = DROWSY)
  /\ badge_of (reducer t state (ACKNOWLEDGE (vehicleId (source v)))) v = ACKNOWLEDGED
  /\ ack_button (reducer t state (ACKNOWLEDGE (vehicleId (source v)))) v = false
  /\ forall c,
       badge_of (reducer c (reducer t state (ACKNOWLEDGE (vehicleId (source v))))
                   CLEANUP) v
       = if Z.ltb c (t + 300000) || JS.inherited (vehicleId (source v))
         then ACKNOWLEDGED else DROWSY.
Proof.
  intros Ht Hd.
  assert (Hack : acknowledged (reducer t state (ACKNOWLEDGE (vehicleId (source v))))
                   (vehicleId (source v)) = true).
  { simpl. apply acknowledged_insert. lia. }
  unfold badge_of, ack_button. rewrite Hd. cbn [andb].
  split; [|split; [|split]].
  - intros ack. destruct (acknowledged ack _); cbn; split; congruence.
  - now rewrite Hack.
  - now rewrite Hack.
  - intros c. unfold acknowledged. rewrite cleanup_lookup. simpl.
    rewrite lookup_insert_eq.
    replace (t + 5 * 60 * 1000) with (t + 300000) by lia.
    destruct (Z.ltb c (t + 300000)); cbn [orb].
    + destruct (Z.eqb_spec (t + 300000) 0); [lia | reflexivity].
    + now destruct (JS.inherited (vehicleId (source v))).
Qed.

Lemma card_follows_acknowledgment_witness :
  0 <= 1000
  /\ isDrowsy state_299 = true
  /\ badge_of (reducer 1000 ∅ (ACKNOWLEDGE "BUS12")) state_299 = ACKNOWLEDGED.
Proof.
  split; [lia|]. split; [reflexivity|].
  exact (proj1 (proj2 (card_follows_acknowledgment 1000 ∅ state_299
                         ltac:(lia) eq_refl))).
Defined.

End AcknowledgmentFurther.

(** ** The siren handler, for every body *)

Section SirenFurther.
Import JS Store.

(** X12: the siren handler answers 201 exactly when the body carries a
    truthy [vehicleId] and a listed command and the insert succeeds; in
    every other case the collection is untouched.  On 201 exactly one
    document is appended, made of five fields only: whatever else the
    client sent (a status, a timestamp, an identifier) is dropped, and a
    missing driver is stored as [null]. *)
Theorem siren_response (now : Z) (db : collection) (body : val) :
  (status (Siren.res (Siren.handler_post now db body)) = 201
   <-> truthy (get body "vehicleId") = true
       /\ (get body "command" = Str "KILL_ENGINE"
           \/ get body "command" = Str "TRIGGER_ALARM"
           \/ get body "command" = Str "RESET")
       /\ online db = true)
  /\ (status (Siren.res (Siren.handler_post now db body)) <> 201 ->
      Siren.store (Siren.handler_post now db body) = db)
  /\ (status (Siren.res (Siren.handler_post now db body)) = 201 ->
      insertedId (Siren.res (Siren.handler_post now db body))
      = Some (length (docs db))
      /\ docs (Siren.store (Siren.handler_post now db body))
         = (docs db
            ++ [Obj [("vehicleId", get body "vehicleId");
                     ("command", get body "command");
                     ("driver", if truthy (get body "driver")
                                then get body "driver" else Null);
                     ("timestamp", Num (Fin (Qmake now 1000)));
                     ("status", Str "PENDING")]])%list).
Proof.
  unfold Siren.handler_post, insertOne.
  destruct (nullish body) eqn:Hnull.
  { assert (Hid : get body "vehicleId" = Undefined) by (now destruct body).
    rewrite Hid. cbn. repeat split; try discriminate; try tauto.
    intros (E & _). discriminate E. }
  destruct (truthy (get body "vehicleId")) eqn:Hid; cbn [negb orb];
    [| cbn; repeat split; try discriminate; try tauto;
       intros (E & _); discriminate E].
  destruct (truthy (get body "command")) eqn:Hcmd; cbn [negb orb].
  - destruct (Siren.includes Siren.allowedCommands (get body "command")) eqn:Hin;
      cbn [negb].
    + pose proof (proj1 (includes_allowed _) Hin) as Hallowed.
      destruct (online db) eqn:Hon; cbn.
      * repeat split; try tauto; congruence.
      * repeat split; try discriminate; try tauto.
        intros (_ & _ & E). discriminate E.
    + cbn. repeat split; try discriminate; try tauto.
      intros (_ & Hallowed & _). apply includes_allowed in Hallowed. congruence.
  - cbn. repeat split; try discriminate; try tauto.
    intros (_ & [E | [E | E]] & _); rewrite E in Hcmd; discriminate Hcmd.
Qed.

End SirenFurther.

(** ** The operator's controls *)

Section ControlsFurther.
Import JS Store Dashboard Controls.

(** X13: of the operator's actions only TRIGGER_ALARM reaches the command
    log: KILL_ENGINE, RESET, CALL and anything else change nothing in the
    collection and log no error. *)
Theorem only_siren_is_logged (client_now server_now : Z) (db : collection)
  (action vehicleId : string) :
  action <> "TRIGGER_ALARM" ->
  commands (handleVehicleControl client_now server_now db action vehicleId) = db
  /\ error_logged (handleVehicleControl client_now server_now db action vehicleId)
     = false.
Proof.
  intros Hne. unfold handleVehicleControl.
  destruct (String.eqb action "KILL_ENGINE"); [now split|].
  destruct (String.eqb_spec action "TRIGGER_ALARM"); [contradiction|].
  destruct (String.eqb action "RESET"); [now split|].
  destruct (String.eqb action "CALL"); now split.
Qed.

Lemma only_siren_is_logged_witness :
  "KILL_ENGINE" <> "TRIGGER_ALARM"
  /\ commands (handleVehicleControl 1700000000123 1700000000456 empty_db
                 "KILL_ENGINE" "BUS12") = empty_db.
Proof.
  assert (Hne : "KILL_ENGINE" <> "TRIGGER_ALARM") by discriminate.
  split; [exact Hne|].
  exact (proj1 (only_siren_is_logged 1700000000123 1700000000456 empty_db
                  "KILL_ENGINE" "BUS12" Hne)).
Defined.

(** X14: the siren button, for a vehicle with a non-empty identifier and
    a collection that accepts the insert, appends exactly one command
    record: TRIGGER_ALARM, PENDING, no driver, stamped with the server's
    clock (the timestamp computed by the browser is not stored). *)
Theorem siren_button_logs_pending (client_now server_now : Z) (db : collection)
  (vehicleId : string) :
  vehicleId <> "" ->
  online db = true ->
  docs (commands (handleVehicleControl client_now server_now db
                    "TRIGGER_ALARM" vehicleId))
  = (docs db
     ++ [Obj [("vehicleId", Str vehicleId);
              ("command", Str "TRIGGER_ALARM");
              ("driver", Null);
              ("timestamp", Num (Fin (Qmake server_now 1000)));
              ("status", Str "PENDING")]])%list
  /\ error_logged (handleVehicleControl client_now server_now db
                     "TRIGGER_ALARM" vehicleId) = false.
Proof.
  intros Hid Hon. unfold handleVehicleControl. cbn [String.eqb Ascii.eqb Bool.eqb].
  cbn -[Siren.handler_post].
  unfold Siren.handler_post, insertOne. cbn.
  destruct (String.eqb_spec vehicleId ""); [contradiction|]. cbn.
  rewrite Hon. cbn. now split.
Qed.

Lemma siren_button_logs_pending_witness :
  "BUS12" <> ""
  /\ online empty_db = true
  /\ error_logged (handleVehicleControl 1700000000123 1700000000456 empty_db
                     "TRIGGER_ALARM" "BUS12") = false.
Proof.
  assert (Hid : "BUS12" <> "") by discriminate.
  split; [exact Hid|]. split; [reflexivity|].
  exact (proj2 (siren_button_logs_pending 1700000000123 1700000000456 empty_db
                  "BUS12" Hid eq_refl)).
Defined.

(** X15: the notification shown to the operator depends on the action and
    the vehicle only, not on the clocks nor on what happened to the
    request; it is of type ["danger"] exactly for KILL_ENGINE.  When the
    siren request fails (collection unavailable, or empty identifier) the
    error is logged, nothing is stored, and the same "COMMAND SENT"
    notification is shown. *)
Theorem notification_ignores_outcome (client_now server_now : Z) (db : collection)
  (client_now' server_now' : Z) (db' : collection) (action vehicleId : string) :
  shown (handleVehicleControl client_now server_now db action vehicleId)
  = shown (handleVehicleControl client_now' server_now' db' action vehicleId)
  /\ (type (shown (handleVehicleControl client_now server_now db action vehicleId))
      = "danger" <-> action = "KILL_ENGINE")
  /\ (action = "TRIGGER_ALARM" -> online db = false \/ vehicleId = "" ->
      error_logged (handleVehicleControl client_now server_now db action vehicleId)
      = true
      /\ commands (handleVehicleControl client_now server_now db action vehicleId)
         = db).
Proof.
  split; [|split].
  - unfold handleVehicleControl.
    destruct (String.eqb action "KILL_ENGINE"); [reflexivity|].
    destruct (String.eqb action "TRIGGER_ALARM"); [reflexivity|].
    destruct (String.eqb action "RESET"); [reflexivity|].
    destruct (String.eqb action "CALL"); reflexivity.
  - unfold handleVehicleControl.
    destruct (String.eqb_spec action "KILL_ENGINE") as [-> | Hne]; cbn.
    + tauto.
    + destruct (String.eqb action "TRIGGER_ALARM"); cbn;
        [split; [discriminate | contradiction]|].
      destruct (String.eqb action "RESET"); cbn;
        [split; [discriminate | contradiction]|].
      destruct (String.eqb action "CALL"); cbn;
        split; (discriminate || contradiction).
  - intros -> Hfail. unfold handleVehicleControl.
    cbn -[Siren.handler_post].
    unfold Siren.handler_post, insertOne. cbn.
    destruct (String.eqb_spec vehicleId "") as [-> | Hid]; cbn; [now split|].
    destruct Hfail as [Hoff | ->]; [|contradiction].
    rewrite Hoff. cbn. now split.
Qed.

End ControlsFurther.

(** ** The ingestion handlers: what is stored *)

Section IngestionFurther.
Import JS Store.
Context `{Runtime}.

(** What a 201 of [/api/data] tells about the payload. *)
Lemma data_accepted_inv (now : Z) (db : collection) (data : val) :
  status (Data.res (Data.handler_post now db data)) = 201 ->
  truthy (get data "vehicleId") = true /\ get data "speed" <> Undefined
  /\ truthy (get data "gps") = true
  /\ isFinite (Number (get (get data "gps") "lat")) = true
  /\ isFinite (Number (get (get data "gps") "lng")) = true
  /\ online db = true.
Proof.
  destruct (truthy (get data "vehicleId")) eqn:Hid;
    [| rewrite (data_missing now db data) by auto; discriminate].
  destruct (is_undefined_spec (get data "speed")) as [Hsp | Hsp];
    [rewrite (data_missing now db data) by auto; discriminate |].
  destruct (truthy (get data "gps")) eqn:Hgps;
    [| rewrite (data_missing now db data) by auto; discriminate].
  destruct (isFinite (Number (get (get data "gps") "lat"))) eqn:Hlat;
    [| rewrite (data_invalid_gps now db data) by auto; discriminate].
  destruct (isFinite (Number (get (get data "gps") "lng"))) eqn:Hlng;
    [| rewrite (data_invalid_gps now db data) by auto; discriminate].
  destruct (online db) eqn:Hon; [tauto|].
  unfold Data.handler_post, insertOne.
  rewrite (data_guard_passed _ Hid Hsp Hgps), Hlat, Hlng, Hon. discriminate.
Qed.

(** X16: a truthy [timestamp] sent by the client is stored as it is. *)
Theorem truthy_timestamp_kept (now : Z) (db : collection) (data : val) :
  truthy (get data "timestamp") = true ->
  status (Data.res (Data.handler_post now db data)) = 201 ->
  exists d : val,
    docs (Data.store (Data.handler_post now db data)) = (docs db ++ [d])%list
    /\ get d "timestamp" = get data "timestamp".
Proof.
  intros Hts Hok.
  destruct (data_outcome now db data) as [[Hno _] | (_ & Hdocs & props & ->)];
    [contradiction|].
  eexists. split; [exact Hdocs|].
  now rewrite normalised_timestamp, Hts.
Qed.

(** X17: the stored [gps] is always the pair of finite numbers the
    coordinates convert to: numeric strings are converted and any other
    property of [gps] is dropped. *)
Theorem stored_gps_is_numeric (now : Z) (db : collection) (data : val) :
  status (Data.res (Data.handler_post now db data)) = 201 ->
  exists (d : val) (lat lng : Q),
    docs (Data.store (Data.handler_post now db data)) = (docs db ++ [d])%list
    /\ get d "gps" = Obj [("lat", Num (Fin lat)); ("lng", Num (Fin lng))]
    /\ Number (get (get data "gps") "lat") = Fin lat
    /\ Number (get (get data "gps") "lng") = Fin lng.
Proof.
  intros Hok.
  destruct (data_accepted_inv _ _ _ Hok) as (_ & _ & _ & Hlat & Hlng & _).
  destruct (data_outcome now db data) as [[Hno _] | (_ & Hdocs & props & ->)];
    [contradiction|].
  destruct (Number (get (get (Obj props) "gps") "lat")) as [| |lat] eqn:Elat;
    try discriminate Hlat.
  destruct (Number (get (get (Obj props) "gps") "lng")) as [| |lng] eqn:Elng;
    try discriminate Hlng.
  exists (Data.normalised now (Obj props)), lat, lng.
  split; [exact Hdocs|]. split; [|now split].
  now rewrite normalised_gps, Elat, Elng.
Qed.

(** X18: the driver information never changes the answer: replacing or
    adding the [driver] of a payload gives the same response; on an
    accepted payload the warning is issued exactly when the driver, its
    [id] or its [name] is missing or falsy. *)
Theorem driver_never_changes_response (now : Z) (db : collection)
  (props : list (string * val)) (x : val) :
  Data.res (Data.handler_post now db (set (Obj props) "driver" x))
  = Data.res (Data.handler_post now db (Obj props))
  /\ (status (Data.res (Data.handler_post now db (Obj props))) = 201 ->
      (Data.warned (Data.handler_post now db (Obj props)) = true
       <-> truthy (get (Obj props) "driver") = false
           \/ truthy (get (get (Obj props) "driver") "id") = false
           \/ truthy (get (get (Obj props) "driver") "name") = false)).
Proof.
  split.
  - unfold Data.handler_post, insertOne. cbn [set get truthy negb orb].
    rewrite !(lookup_assign_other "driver") by discriminate.
    destruct (negb (truthy (lookup_prop "vehicleId" props))
              || is_undefined (lookup_prop "speed" props)
              || negb (truthy (lookup_prop "gps" props))); [reflexivity|].
    destruct (negb (isFinite _) || negb (isFinite _)); [reflexivity|].
    destruct (online db); reflexivity.
  - intros Hok.
    destruct (data_accepted_inv _ _ _ Hok) as (Hid & Hsp & Hgps & Hlat & Hlng & Hon).
    unfold Data.handler_post, insertOne.
    rewrite (data_guard_passed _ Hid Hsp Hgps), Hlat, Hlng, Hon.
    cbn [Data.warned set get negb orb].
    rewrite !(lookup_assign_other "gps" "driver") by discriminate.
    rewrite !orb_true_iff, !negb_true_iff. tauto.
Qed.

Lemma assign_prop_same (k : string) (x : val) (props : list (string * val)) :
  lookup_prop k props = x -> x <> Undefined -> assign_prop k x props = props.
Proof.
  intros Hx Hdef. induction props as [|[k' v] rest IH]; simpl in *.
  - congruence.
  - destruct (String.eqb_spec k k') as [-> | Hne]; [congruence|].
    now rewrite IH.
Qed.

(** X19: normalisation is idempotent: a document stored by the handler,
    posted again, is accepted and stored unchanged. *)
Theorem stored_document_reingested (now now' : Z) (db db' : collection) (data : val) :
  status (Data.res (Data.handler_post now db data)) = 201 ->
  now <> 0 ->
  online db' = true ->
  Data.normalised now' (Data.normalised now data) = Data.normalised now data
  /\ status (Data.res (Data.handler_post now' db' (Data.normalised now data))) = 201
  /\ docs (Data.store (Data.handler_post now' db' (Data.normalised now data)))
     = (docs db' ++ [Data.normalised now data])%list.
Proof.
  intros Hok Hnow Hon.
  destruct (data_accepted_inv _ _ _ Hok) as (Hid & Hsp & Hgps & Hlat & Hlng & _).
  destruct (truthy_get_object _ _ Hid) as [props ->].
  set (d := Data.normalised now (Obj props)).
  assert (Hd : exists props', d = Obj props').
  { unfold d, Data.normalised. destruct (negb _); cbn [set]; eauto. }
  destruct Hd as (props' & Hd).
  assert (Hdgps : get d "gps"
                  = Obj [("lat", Num (Number (get (get (Obj props) "gps") "lat")));
                         ("lng", Num (Number (get (get (Obj props) "gps") "lng")))])
    by apply normalised_gps.
  assert (Hdts : truthy (get d "timestamp") = true).
  { unfold d. rewrite normalised_timestamp.
    destruct (truthy (get (Obj props) "timestamp")) eqn:E; [exact E|].
    cbn. apply negb_true_iff, Z.eqb_neq. exact Hnow. }
  assert (Hidem : Data.normalised now' d = d).
  { unfold Data.normalised at 1. rewrite Hdgps. cbn [get lookup_prop String.eqb
      Ascii.eqb Bool.eqb Number].
    assert (Hset : set d "gps"
                     (Obj [("lat", Num (Number (get (get (Obj props) "gps") "lat")));
                           ("lng", Num (Number (get (get (Obj props) "gps") "lng")))])
                   = d).
    { rewrite Hd in Hdgps |- *. cbn [set get] in *.
      now rewrite (assign_prop_same _ _ _ Hdgps). }
    cbn [get] in Hset. rewrite Hset, Hdts. reflexivity. }
  split; [exact Hidem|].
  assert (Hdid : truthy (get d "vehicleId") = true)
    by (unfold d; rewrite normalised_field by discriminate; exact Hid).
  assert (Hdsp : get d "speed" <> Undefined)
    by (unfold d; rewrite normalised_field by discriminate; exact Hsp).
  assert (Hdg : truthy (get d "gps") = true) by (now rewrite Hdgps).
  destruct (data_accepted now' db' d Hdid Hdsp Hdg) as [Hst Hres];
    try (rewrite Hdgps; cbn; assumption); [exact Hon|].
  rewrite Hst, Hres, Hidem. now split.
Qed.

End IngestionFurther.

Lemma truthy_timestamp_kept_witness :
  JS.truthy (JS.get payload_without_driver "timestamp") = true
  /\ Store.status (Data.res (Data.handler_post (H := example_runtime)
       1700000000000 empty_db payload_without_driver)) = 201
  /\ exists d : JS.val,
       Store.docs (Data.store (Data.handler_post (H := example_runtime)
         1700000000000 empty_db payload_without_driver))
       = (Store.docs empty_db ++ [d])%list
       /\ JS.get d "timestamp" = JS.get payload_without_driver "timestamp".
Proof.
  split; [reflexivity|]. split; [reflexivity|].
  exact (truthy_timestamp_kept (H := example_runtime) 1700000000000 empty_db
           payload_without_driver eq_refl eq_refl).
Defined.

Lemma stored_gps_is_numeric_witness :
  Store.status (Data.res (Data.handler_post (H := example_runtime)
    1700000000000 empty_db payload_complete)) = 201
  /\ exists (d : JS.val) (lat lng : Q),
       Store.docs (Data.store (Data.handler_post (H := example_runtime)
         1700000000000 empty_db payload_complete))
       = (Store.docs empty_db ++ [d])%list
       /\ JS.get d "gps"
          = JS.Obj [("lat", JS.Num (JS.Fin lat)); ("lng", JS.Num (JS.Fin lng))]
       /\ JS.Number (H := example_runtime)
            (JS.get (JS.get payload_complete "gps") "lat") = JS.Fin lat
       /\ JS.Number (H := example_runtime)
            (JS.get (JS.get payload_complete "gps") "lng") = JS.Fin lng.
Proof.
  split; [reflexivity|].
  exact (stored_gps_is_numeric (H := example_runtime) 1700000000000 empty_db
           payload_complete eq_refl).
Defined.

Lemma stored_document_reingested_witness :
  Store.status (Data.res (Data.handler_post (H := example_runtime)
    1700000000000 empty_db payload_complete)) = 201
  /\ 1700000000000 <> 0
  /\ Store.online empty_db = true
  /\ Store.status (Data.res (Data.handler_post (H := example_runtime)
       1700000009000 empty_db
       (Data.normalised (H := example_runtime) 1700000000000 payload_complete)))
     = 201.
Proof.
  assert (Hnow : 1700000000000 <> 0) by discriminate.
  split; [reflexivity|]. split; [exact Hnow|]. split; [reflexivity|].
  exact (proj1 (proj2 (stored_document_reingested (H := example_runtime)
                         1700000000000 1700000009000 empty_db empty_db
                         payload_complete eq_refl Hnow eq_refl))).
Defined.

(** ** The GPS update handler *)

Section GpsHandler.
Import JS Store.
Context `{Runtime}.

Lemma gps_outcome (now : Z) (db : collection) (data : val) :
  (status (Gps.res (Gps.handler_post now db data)) <> 201
   /\ Gps.store (Gps.handler_post now db data) = db
   /\ ~ (truthy (get data "vehicleId") = true
         /\ truthy (get data "gps") = true
         /\ isFinite (Number (get (get data "gps") "lat")) = true
         /\ isFinite (Number (get (get data "gps") "lng")) = true
         /\ online db = true))
  \/
  (status (Gps.res (Gps.handler_post now db data)) = 201
   /\ insertedId (Gps.res (Gps.handler_post now db data)) = Some (length (docs db))
   /\ docs (Gps.store (Gps.handler_post now db data))
      = (docs db ++ [Data.normalised now data])%list
   /\ truthy (get data "vehicleId") = true
   /\ truthy (get data "gps") = true
   /\ isFinite (Number (get (get data "gps") "lat")) = true
   /\ isFinite (Number (get (get data "gps") "lng")) = true
   /\ online db = true).
Proof.
  unfold Gps.handler_post, insertOne, Data.normalised.
  destruct (truthy (get data "vehicleId")) eqn:Hid.
  2:{ left. rewrite orb_true_r. cbn. repeat split; try discriminate.
      intros (E & _). discriminate E. }
  destruct (truthy_get_object _ _ Hid) as [props ->]. cbn [truthy negb orb].
  destruct (truthy (get (Obj props) "gps")) eqn:Hgps; cbn [negb].
  2:{ left. cbn. repeat split; try discriminate.
      intros (_ & E & _). discriminate E. }
  destruct (isFinite (Number (get (get (Obj props) "gps") "lat"))) eqn:Hlat;
    cbn [negb orb].
  2:{ left. cbn. repeat split; try discriminate.
      intros (_ & _ & E & _). discriminate E. }
  destruct (isFinite (Number (get (get (Obj props) "gps") "lng"))) eqn:Hlng;
    cbn [negb].
  2:{ left. cbn. repeat split; try discriminate.
      intros (_ & _ & _ & E & _). discriminate E. }
  destruct (online db) eqn:Hon.
  - right. cbn. repeat split.
  - left. cbn. repeat split; try discriminate.
    intros (_ & _ & _ & _ & E). discriminate E.
Qed.

(** X20: [/api/updatedgps] accepts a payload exactly when it has a truthy
    [vehicleId] and a [gps] whose coordinates convert to finite numbers
    (no [speed] is asked for); it then stores the payload normalised as
    [/api/data] would, and otherwise stores nothing. *)
Theorem gps_validation (now : Z) (db : collection) (data : val) :
  online db = true ->
  (status (Gps.res (Gps.handler_post now db data)) = 201
   <-> truthy (get data "vehicleId") = true
       /\ truthy (get data "gps") = true
       /\ isFinite (Number (get (get data "gps") "lat")) = true
       /\ isFinite (Number (get (get data "gps") "lng")) = true)
  /\ (status (Gps.res (Gps.handler_post now db data)) <> 201 ->
      Gps.store (Gps.handler_post now db data) = db)
  /\ (status (Gps.res (Gps.handler_post now db data)) = 201 ->
      insertedId (Gps.res (Gps.handler_post now db data)) = Some (length (docs db))
      /\ docs (Gps.store (Gps.handler_post now db data))
         = (docs db ++ [Data.normalised now data])%list).
Proof.
  intros Hon.
  destruct (gps_outcome now db data)
    as [(Hno & Hst & Hnot) | (Hok & Hid' & Hdocs & Hid & Hgps & Hlat & Hlng & _)].
  - split; [|split]; [split | auto | contradiction].
    + contradiction.
    + intros (? & ? & ? & ?). exfalso. apply Hnot. tauto.
  - split; [|split]; [tauto | contradiction | auto].
Qed.

(** X21: whatever [/api/data] accepts, [/api/updatedgps] accepts too
    (each request with its own clock), and the two stored documents have
    the same properties except possibly [timestamp]: they are the same
    document when the payload carries a truthy [timestamp], or when both
    requests read the same clock; otherwise each carries its own
    ingestion time. *)
Theorem data_payload_accepted_by_gps (now now' : Z) (db gps_db : collection)
  (data : val) :
  status (Data.res (Data.handler_post now db data)) = 201 ->
  online gps_db = true ->
  status (Gps.res (Gps.handler_post now' gps_db data)) = 201
  /\ exists d d' : val,
       docs (Data.store (Data.handler_post now db data)) = (docs db ++ [d])%list
       /\ docs (Gps.store (Gps.handler_post now' gps_db data))
          = (docs gps_db ++ [d'])%list
       /\ (forall k, k <> "timestamp" -> get d' k = get d k)
       /\ (truthy (get data "timestamp") = true \/ now' = now -> d' = d)
       /\ (truthy (get data "timestamp") = false ->
           get d "timestamp" = Num (Fin (Qmake now 1000))
           /\ get d' "timestamp" = Num (Fin (Qmake now' 1000))).
Proof.
  intros Hok Hon.
  destruct (data_accepted_inv _ _ _ Hok) as (Hid & _ & Hgps & Hlat & Hlng & _).
  destruct (data_outcome now db data) as [[Hno _] | (_ & Hdocs & _)];
    [contradiction|].
  destruct (gps_outcome now' gps_db data)
    as [(_ & _ & Hnot) | (Hok' & _ & Hdocs' & _)].
  { exfalso. apply Hnot. tauto. }
  split; [exact Hok'|].
  exists (Data.normalised now data), (Data.normalised now' data).
  split; [exact Hdocs|]. split; [exact Hdocs'|].
  destruct (truthy_get_object _ _ Hid) as [props ->].
  split; [|split].
  - intros k Hk. destruct (String.eqb_spec k "gps") as [-> | Hkg].
    + now rewrite !normalised_gps.
    + now rewrite !normalised_field by assumption.
  - intros [Hts | ->]; [|reflexivity].
    unfold Data.normalised. cbn [set get] in *.
    rewrite (lookup_assign_other "gps" "timestamp") by discriminate.
    now rewrite Hts.
  - intros Hts. now rewrite !normalised_timestamp, Hts.
Qed.

End GpsHandler.

Lemma gps_validation_witness :
  Store.online empty_db = true
  /\ Store.status (Gps.res (Gps.handler_post (H := example_runtime)
       1700000000000 empty_db payload_without_speed)) = 201.
Proof.
  split; [reflexivity|].
  apply (gps_validation (H := example_runtime) 1700000000000 empty_db
           payload_without_speed eq_refl).
  repeat split.
Defined.

Lemma data_payload_accepted_by_gps_witness :
  Store.status (Data.res (Data.handler_post (H := example_runtime)
    1700000000000 empty_db payload_complete)) = 201
  /\ Store.online empty_db = true
  /\ Store.status (Gps.res (Gps.handler_post (H := example_runtime)
       1700000000250 empty_db payload_complete)) = 201.
Proof.
  split; [reflexivity|]. split; [reflexivity|].
  exact (proj1 (data_payload_accepted_by_gps (H := example_runtime)
                  1700000000000 1700000000250 empty_db empty_db payload_complete
                  eq_refl eq_refl)).
Defined.

(** ** The aggregates of the map page *)

Section MapAggregates.
Import JS Dashboard MapPage.
Variable quotient_toFixed1 : Z -> Z -> string.
Variable toLocaleTimeStringHM : Z -> string.

Lemma sleeping_is_truthy (a : val) :
  strict_eq a (Str "Sleeping") = true -> truthy a = true.
Proof.
  destruct a as [| | |[| |q]|s|]; simpl; try discriminate.
  intros E. apply String.eqb_eq in E. now subst s.
Qed.

Lemma alert_partition (data : list record) :
  (length (List.filter (fun d => strict_eq (alert d) (Str "Sleeping")) data)
   + length (List.filter
               (fun d => truthy (alert d)
                         && negb (strict_eq (alert d) (Str "Sleeping"))) data))%nat
  = length (List.filter (fun d => truthy (alert d)) data).
Proof.
  induction data as [|d rest IH]; simpl; [reflexivity|].
  destruct (strict_eq (alert d) (Str "Sleeping")) eqn:Es.
  - rewrite (sleeping_is_truthy _ Es). simpl. lia.
  - destruct (truthy (alert d)); simpl; lia.
Qed.

(** X22: [totalActiveAlerts] is the number of records whose alert is
    truthy, whatever its label; it lies between [sleepingAlertCount] and
    [totalVehicles]. *)
Theorem totalActiveAlerts_counts_truthy (data : list record) :
  totalActiveAlerts (calculateAggregates quotient_toFixed1 toLocaleTimeStringHM data)
  = length (List.filter (fun d => truthy (alert d)) data)
  /\ (sleepingAlertCount
        (calculateAggregates quotient_toFixed1 toLocaleTimeStringHM data)
      <= totalActiveAlerts
           (calculateAggregates quotient_toFixed1 toLocaleTimeStringHM data)
      <= totalVehicles
           (calculateAggregates quotient_toFixed1 toLocaleTimeStringHM data))%nat.
Proof.
  cbn [calculateAggregates totalActiveAlerts sleepingAlertCount totalVehicles].
  rewrite alert_partition. split; [reflexivity|]. split.
  - rewrite <- alert_partition. lia.
  - apply List.filter_length_le.
Qed.

Lemma fold_max_spec (data : list record) (m0 : Z) :
  m0 <= fold_left (fun max d => Z.max max (speed d)) data m0
  /\ (forall d, In d data ->
        speed d <= fold_left (fun max d => Z.max max (speed d)) data m0)
  /\ (fold_left (fun max d => Z.max max (speed d)) data m0 = m0
      \/ exists d, In d data
           /\ speed d = fold_left (fun max d => Z.max max (speed d)) data m0).
Proof.
  revert m0. induction data as [|d rest IH]; simpl; intros m0.
  - split; [lia|]. split; [intros d [] | auto].
  - destruct (IH (Z.max m0 (speed d))) as (Hge & Hall & Hatt).
    split; [lia|]. split.
    + intros d' [<- | Hd']; [lia | now apply Hall].
    + destruct Hatt as [E | (d' & Hd' & E)]; [|right; exists d'; auto].
      destruct (Z.max_spec m0 (speed d)) as [[_ Em] | [_ Em]].
      * right. exists d. split; [now left|]. rewrite E. symmetry. exact Em.
      * left. rewrite E. exact Em.
Qed.

(** X23: [maxSpeed] bounds every speed of the data from above, is never
    negative, and is either 0 or the speed of some record. *)
Theorem maxSpeed_bounds (data : list record) :
  0 <= maxSpeed (calculateAggregates quotient_toFixed1 toLocaleTimeStringHM data)
  /\ (forall d, In d data ->
        speed d
        <= maxSpeed (calculateAggregates quotient_toFixed1 toLocaleTimeStringHM data))
  /\ (maxSpeed (calculateAggregates quotient_toFixed1 toLocaleTimeStringHM data) = 0
      \/ exists d, In d data
           /\ speed d
              = maxSpeed (calculateAggregates quotient_toFixed1
                            toLocaleTimeStringHM data)).
Proof. cbn [calculateAggregates maxSpeed]. apply fold_max_spec. Qed.

(** X24: the speed chart of the map page shows the last 10 records of the
    data in the order received (it does not sort them), all of them when
    there are fewer; on empty data every aggregate is 0 and the chart is
    empty. *)
Theorem speedData_last_ten (data : list record) :
  calculateAggregates quotient_toFixed1 toLocaleTimeStringHM []
  = {| totalVehicles := 0; avgSpeed := Num (Fin (Qmake 0 1)); maxSpeed := 0;
       sleepingAlertCount := 0; totalActiveAlerts := 0; speedData := [] |}
  /\ exists older recent : list record,
       data = (older ++ recent)%list
       /\ length recent = Nat.min 10 (length data)
       /\ speedData (calculateAggregates quotient_toFixed1 toLocaleTimeStringHM data)
          = List.map (fun d => {| time := toLocaleTimeStringHM (timestamp d);
                                  p_speed := speed d |}) recent.
Proof.
  split; [reflexivity|].
  exists (firstn (length data - 10) data), (skipn (length data - 10) data).
  split; [symmetry; apply List.firstn_skipn|].
  split; [rewrite List.length_skipn; lia|].
  cbn [calculateAggregates speedData]. unfold slice_last.
  now rewrite List.length_map, List.skipn_map.
Qed.

End MapAggregates.
